(** * open-software-analyzer: commit-history extraction and analysis

    A shallow embedding of [src/data_fetcher.py], [src/fetch_axios_api.py]
    and [src/analyzer.py].

    Conventions of the embedding.
    - A Python [int] is a [Z]; the numeric columns of a frame hold integers
      and the 64-bit storage range of a pandas column is not modelled.
    - A Python/NumPy [float] that is finite is the exact rational it stands
      for ([Q]); the special values are constructors of their own.
    - A naive [datetime] is the number of seconds of its wall clock counted
      from 1970-01-01 00:00:00 (git and the GitHub API have a resolution of
      one second), which is also how a [datetime64] column stores it.
    - A raised exception is the [Raise] constructor of [outcome]. *)

From Stdlib Require Import ZArith QArith Lia Ascii String DecimalString.
From Stdlib Require DecimalPos DecimalZ.
From stdpp Require Import base option list numbers strings gmap sorting.

Local Open Scope Z_scope.

(** ** The Python runtime the sources rely on *)

Module Py.

Inductive exn : Type :=
| ZeroDivisionError
| KeyError (key : string)
| ValueError (msg : string)
| TypeError
| AttributeError
| GitCommandError
| InvalidGitRepositoryError
| IndexError
| ParserError
| RequestException
| EmptyDataError.

Inductive outcome (A : Type) : Type :=
| Ok (a : A)
| Raise (e : exn).
Global Arguments Ok {A} a.
Global Arguments Raise {A} e.

Global Instance outcome_ret : MRet outcome := fun _ a => Ok a.
Global Instance outcome_bind : MBind outcome := fun _ _ f m =>
  match m with
  | Ok a => f a
  | Raise e => Raise e
  end.

Global Instance outcome_fmap : FMap outcome := fun _ _ f m =>
  match m with
  | Ok a => Ok (f a)
  | Raise e => Raise e
  end.

Definition is_Ok {A} (m : outcome A) : bool :=
  match m with Ok _ => true | Raise _ => false end.

(** [float]: a finite value, or one of IEEE's special values. *)
Inductive float : Type :=
| Finite (q : Q)
| NaN
| PosInf
| NegInf.

Definition is_nan (x : float) : bool :=
  match x with NaN => true | _ => false end.

(** The kind of scalar a reduction over a column returns: a NumPy
    [int64] for an integer column, a plain Python [int] for an
    [object] column (which is what a column without rows read from a
    file is). *)
Inductive dtype : Type := int64 | object.

(** [a / b] where [a] is a scalar of kind [d] and [b] a Python [int].
    Python's own division raises on a zero divisor; NumPy's returns
    [nan] or an infinity and only emits a warning. *)
Definition truediv (d : dtype) (a b : Z) : outcome float :=
  if b =? 0 then
    match d with
    | object => Raise ZeroDivisionError
    | int64 =>
        Ok (if a =? 0 then NaN else if 0 <? a then PosInf else NegInf)
    end
  else Ok (Finite (inject_Z a / inject_Z b)).

(** [len(x)] as a Python integer. *)
Definition len {A} (l : list A) : Z := Z.of_nat (length l).

End Py.
Import Py.

(** ** Data model *)

(** One row of the commit frame, with the columns of
    [get_commit_history]'s [commit_data]. *)
Record CommitRecord : Type := mkCommitRecord {
  sha : string;
  author_name : string;
  author_email : string;
  committer_name : string;
  committer_email : string;
  datetime : Z;
  message : string;
  insertions : Z;
  deletions : Z;
  lines_changed : Z;
  files_changed : Z;
  parents : Z
}.

(** A [DataFrame] of commits that has its columns: the rows, and the
    kind of its numeric columns. *)
Record DataFrame : Type := mkDataFrame {
  numeric : dtype;
  rows : list CommitRecord
}.

(** [df[col].sum()] *)
Definition column_sum (col : CommitRecord -> Z) (df : DataFrame) : Z :=
  foldr Z.add 0 (col <$> rows df).

(** ** Naive and aware datetimes *)

Module Datetime.

(** An aware [datetime]: the wall clock it shows and the offset of its
    time zone east of UTC, both in seconds. *)
Record aware : Type := { wall : Z; utcoffset : Z }.

(** [d.timestamp()]: the instant, in seconds since the epoch. *)
Definition timestamp (d : aware) : Z := wall d - utcoffset d.

(** [d.astimezone(pytz.UTC)]: the offset is subtracted from the wall
    clock and the result carries the zone UTC. *)
Definition astimezone_utc (d : aware) : aware :=
  {| wall := wall d - utcoffset d; utcoffset := 0 |}.

(** [d.replace(tzinfo=None)] and [t.replace(tzinfo=pytz.UTC)]: the wall
    clock is kept, the zone is dropped or attached. *)
Definition replace_tzinfo_none (d : aware) : Z := wall d.
Definition replace_tzinfo_utc (t : Z) : aware :=
  {| wall := t; utcoffset := 0 |}.

(** The accessors of a naive datetime ([Series.dt.hour] and the like). *)
Definition days (t : Z) : Z := t `div` 86400.
Definition hour (t : Z) : Z := (t `mod` 86400) `div` 3600.

(** Monday is 0; 1970-01-01 was a Thursday. *)
Definition dayofweek (t : Z) : Z := (days t + 3) `mod` 7.

(** The month (1 to 12) of the proleptic Gregorian date of day [days t],
    by the usual era / day-of-era computation on years that start in
    March. *)
Definition month (t : Z) : Z :=
  let z := days t + 719468 in
  let era := z `div` 146097 in
  let doe := z - era * 146097 in
  let yoe := (doe - doe `div` 1460 + doe `div` 36524 - doe `div` 146096)
               `div` 365 in
  let doy := doe - (365 * yoe + yoe `div` 4 - yoe `div` 100) in
  let mp := (5 * doy + 2) `div` 153 in
  if mp <? 10 then mp + 3 else mp - 9.

End Datetime.

(** ** The pandas operations the analyzer calls *)

Module Pandas.

Section Series.
Context {K : Type} `{EqDecision K}.

(** The counting pass of [value_counts]: one entry per distinct value, in
    the order in which the values are first met. *)
Fixpoint bump (k : K) (table : list (K * Z)) : list (K * Z) :=
  match table with
  | [] => [(k, 1)]
  | (k', c) :: rest =>
      if decide (k' = k) then (k', c + 1) :: rest
      else (k', c) :: bump k rest
  end.

Definition tally (values : list K) : list (K * Z) :=
  foldl (fun table k => bump k table) [] values.

(** The sorting pass of [value_counts]: by count, largest first; entries
    with equal counts keep the order they have in the table. *)
Fixpoint insert_desc (x : K * Z) (sorted : list (K * Z)) : list (K * Z) :=
  match sorted with
  | [] => [x]
  | y :: rest =>
      if x.2 <? y.2 then y :: insert_desc x rest else x :: y :: rest
  end.

Definition sort_values_desc (table : list (K * Z)) : list (K * Z) :=
  foldr insert_desc [] table.

(** [Series.value_counts()] followed by [reset_index()]: the rows
    (value, count). *)
Definition value_counts (values : list K) : list (K * Z) :=
  sort_values_desc (tally values).

(** [DataFrame.head(n)]: the first [n] rows; for a negative [n], all rows
    but the last [-n]. *)
Definition head {A} (n : Z) (l : list A) : list A :=
  if 0 <=? n then take (Z.to_nat n) l
  else take (length l - Z.to_nat (- n)) l.

End Series.

(** [Series.sort_index()] on an integer index: ascending. *)
Fixpoint insert_index (x : Z * Z) (sorted : list (Z * Z)) : list (Z * Z) :=
  match sorted with
  | [] => [x]
  | y :: rest =>
      if y.1 <? x.1 then y :: insert_index x rest else x :: y :: rest
  end.

Definition sort_index (table : list (Z * Z)) : list (Z * Z) :=
  foldr insert_index [] table.

End Pandas.

(** ** [RepoAnalyzer]: the summaries *)

Module Analyzer.

Record RepoAnalyzer : Type := { commit_df : DataFrame }.

(** [__init__]: the frame is copied; a [datetime] column that is already
    of a datetime type is left as it is. *)
Definition init (commit_df : DataFrame) : RepoAnalyzer :=
  {| commit_df := commit_df |}.

(** The dictionary [analyze_file_changes] returns. *)
Record file_changes : Type := {
  total_commits : Z;
  total_files_changed : Z;
  total_additions : Z;
  total_deletions : Z;
  avg_files_per_commit : float;
  avg_additions_per_commit : float;
  avg_deletions_per_commit : float
}.

Definition analyze_file_changes (self : RepoAnalyzer)
  : outcome file_changes :=
  let df := commit_df self in
  let total_additions := column_sum insertions df in
  let total_deletions := column_sum deletions df in
  let total_files_changed := column_sum files_changed df in
  avg_files ← truediv (numeric df) total_files_changed (len (rows df));
  avg_additions ← truediv (numeric df) total_additions (len (rows df));
  avg_deletions ← truediv (numeric df) total_deletions (len (rows df));
  Ok {| total_commits := len (rows df);
        total_files_changed := total_files_changed;
        total_additions := total_additions;
        total_deletions := total_deletions;
        avg_files_per_commit := avg_files;
        avg_additions_per_commit := avg_additions;
        avg_deletions_per_commit := avg_deletions |}.

(** The dictionary [get_developer_productivity] returns. *)
Record productivity : Type := {
  developer : string;
  commit_count : Z;
  dev_total_files_changed : Z;
  dev_total_additions : Z;
  dev_total_deletions : Z;
  dev_avg_files_per_commit : float;
  dev_avg_additions_per_commit : float;
  dev_avg_deletions_per_commit : float
}.

(** [df[df['author_name'] == developer_name]] *)
Definition by_author (developer_name : string) (df : DataFrame)
  : DataFrame :=
  {| numeric := numeric df;
     rows := filter (fun r => author_name r = developer_name) (rows df) |}.

(** [None] is Python's [None]. *)
Definition get_developer_productivity (self : RepoAnalyzer)
    (developer_name : string) : outcome (option productivity) :=
  let dev_commits := by_author developer_name (commit_df self) in
  if len (rows dev_commits) =? 0 then Ok None
  else
    let total_additions := column_sum insertions dev_commits in
    let total_deletions := column_sum deletions dev_commits in
    let total_files_changed := column_sum files_changed dev_commits in
    let n := len (rows dev_commits) in
    avg_files ← truediv (numeric dev_commits) total_files_changed n;
    avg_additions ← truediv (numeric dev_commits) total_additions n;
    avg_deletions ← truediv (numeric dev_commits) total_deletions n;
    Ok (Some {| developer := developer_name;
                commit_count := n;
                dev_total_files_changed := total_files_changed;
                dev_total_additions := total_additions;
                dev_total_deletions := total_deletions;
                dev_avg_files_per_commit := avg_files;
                dev_avg_additions_per_commit := avg_additions;
                dev_avg_deletions_per_commit := avg_deletions |}).

(** [lst[i]] on a Python list. *)
Definition getitem {A} (l : list A) (i : Z) : outcome A :=
  let n := len l in
  let j := if i <? 0 then i + n else i in
  match (if (0 <=? j) && (j <? n) then l !! Z.to_nat j else None) with
  | Some x => Ok x
  | None => Raise IndexError
  end.

(** [analyze_developer_activity]: the rows (developer, commit_count). *)
Definition analyze_developer_activity (self : RepoAnalyzer) (top_n : Z)
  : list (string * Z) :=
  let activity :=
    Pandas.value_counts (author_name <$> rows (commit_df self)) in
  Pandas.head top_n activity.

(** A bucket of a time distribution is an hour, or the name of a day or
    of a month. *)
Inductive bucket : Type :=
| Hour (h : Z)
| Name (s : string).

Definition day_names : list string :=
  ["周一"; "周二"; "周三"; "周四"; "周五"; "周六"; "周日"].

Definition month_names : list string :=
  ["一月"; "二月"; "三月"; "四月"; "五月"; "六月";
   "七月"; "八月"; "九月"; "十月"; "十一月"; "十二月"].

(** [series.value_counts().sort_index().reset_index()] *)
Definition distribution (values : list Z) : list (Z * Z) :=
  Pandas.sort_index (Pandas.value_counts values).

(** [analyze_commit_time_distribution]: the rows (bucket, commit_count). *)
Definition analyze_commit_time_distribution (self : RepoAnalyzer)
    (time_unit : string) : outcome (list (bucket * Z)) :=
  let datetimes := datetime <$> rows (commit_df self) in
  if decide (time_unit = "hour") then
    Ok ((fun row => (Hour row.1, row.2)) <$>
        distribution (Datetime.hour <$> datetimes))
  else if decide (time_unit = "dayofweek") then
    mapM (fun row => d ← getitem day_names row.1; Ok (Name d, row.2))
         (distribution (Datetime.dayofweek <$> datetimes))
  else if decide (time_unit = "month") then
    mapM (fun row => m ← getitem month_names (row.1 - 1); Ok (Name m, row.2))
         (distribution (Datetime.month <$> datetimes))
  else Raise (ValueError ("不支持的时间单位: " +:+ time_unit)).

End Analyzer.


(** ** Strings *)

Module Str.

(** The ASCII characters [str.isspace] accepts. *)
Definition is_space (c : ascii) : bool :=
  let n := nat_of_ascii c in
  ((9 <=? n)%nat && (n <=? 13)%nat)
  || ((28 <=? n)%nat && (n <=? 32)%nat).

Fixpoint lstrip (s : string) : string :=
  match s with
  | String c rest => if is_space c then lstrip rest else s
  | EmptyString => EmptyString
  end.

Definition rstrip (s : string) : string :=
  String.rev (lstrip (String.rev s)).

(** [s.strip()] *)
Definition strip (s : string) : string := rstrip (lstrip s).

End Str.

(** ** GitPython's objects, as [get_commit_history] reads them *)

Module Git.

Record Actor : Type := { name : string; email : string }.

(** [commit.stats]: the [total] dictionary and the per-file dictionary. *)
Record Stats : Type := {
  total : gmap string Z;
  files : gmap string (gmap string Z)
}.

(** A commit. [stats] is computed by git on each access and can fail. *)
Record Commit : Type := {
  hexsha : string;
  author : Actor;
  committer : Actor;
  committed_datetime : Datetime.aware;
  message : string;
  stats : outcome Stats;
  parents : list string
}.

(** A repository: the commits in the order [iter_commits()] yields them,
    which is git's: from the current head backwards, newest first. *)
Record Repo : Type := { iter_commits : list Commit }.

End Git.

(** ** [RepoDataFetcher] *)

Module Fetcher.

Record RepoDataFetcher : Type := {
  repo_path : option string;
  repo : option Git.Repo
}.

(** [stats.get(key, 0)] *)
Definition get (d : gmap string Z) (key : string) (default : Z) : Z :=
  match d !! key with
  | Some v => v
  | None => default
  end.

(** The body of the loop of [get_commit_history] after the limit test:
    the row of one commit. *)
Definition commit_data (commit : Git.Commit) : outcome CommitRecord :=
  stats ← Git.total <$> Git.stats commit;
  let utc_datetime :=
    Datetime.astimezone_utc (Git.committed_datetime commit) in
  let datetime_without_tz := Datetime.replace_tzinfo_none utc_datetime in
  stats_files ← Git.files <$> Git.stats commit;
  Ok {| sha := Git.hexsha commit;
        author_name := Git.name (Git.author commit);
        author_email := Git.email (Git.author commit);
        committer_name := Git.name (Git.committer commit);
        committer_email := Git.email (Git.committer commit);
        datetime := datetime_without_tz;
        message := Str.strip (Git.message commit);
        insertions := get stats "insertions" 0;
        deletions := get stats "deletions" 0;
        lines_changed := get stats "lines" 0;
        files_changed := Z.of_nat (size stats_files);
        parents := len (Git.parents commit) |}.

(** [limit and count >= limit], as a condition: [None] and [0] are
    false. *)
Definition limit_reached (limit : option Z) (count : Z) : bool :=
  match limit with
  | None => false
  | Some n => negb (n =? 0) && (n <=? count)
  end.

(** The [for] loop of [get_commit_history], with its two variables. *)
Fixpoint history_loop (limit : option Z) (it : list Git.Commit)
    (commits : list CommitRecord) (count : Z)
  : outcome (list CommitRecord) :=
  match it with
  | [] => Ok commits
  | commit :: rest =>
      if limit_reached limit count then Ok commits
      else
        row ← commit_data commit;
        history_loop limit rest (commits ++ [row]) (count + 1)
  end.

(** [pd.DataFrame(commits)] for the rows of the loop. *)
Definition pd_DataFrame (commits : list CommitRecord) : DataFrame :=
  {| numeric := int64; rows := commits |}.

Section Repository.

(** [git.Repo(path)]: opening the repository at a path. *)
Variable git_Repo : string -> outcome Git.Repo.

(** [open_repo]: the repository and the fetcher that now caches it. *)
Definition open_repo (self : RepoDataFetcher)
  : outcome (Git.Repo * RepoDataFetcher) :=
  match repo_path self with
  | None | Some EmptyString => Raise (ValueError "仓库路径未设置")
  | Some path =>
      match repo self with
      | Some r => Ok (r, self)
      | None =>
          r ← git_Repo path;
          Ok (r, {| repo_path := repo_path self; repo := Some r |})
      end
  end.

Definition get_commit_history (self : RepoDataFetcher) (limit : option Z)
  : outcome DataFrame :=
  opened ← open_repo self;
  commits ← history_loop limit (Git.iter_commits opened.1) [] 0;
  Ok (pd_DataFrame commits).

End Repository.

End Fetcher.


(** ** [fetch_commits_from_github_api] *)

Module Api.

Local Unset Elimination Schemes.

(** A decoded JSON value. *)
Inductive json : Type :=
| JNone
| JBool (b : bool)
| JInt (z : Z)
| JStr (s : string)
| JList (l : list json)
| JDict (d : gmap string json).

Local Set Elimination Schemes.

(** [x[key]] *)
Definition subscript (x : json) (key : string) : outcome json :=
  match x with
  | JDict d =>
      match d !! key with
      | Some v => Ok v
      | None => Raise (KeyError key)
      end
  | _ => Raise TypeError
  end.

(** [x.get(key, default)] *)
Definition get (x : json) (key : string) (default : json) : outcome json :=
  match x with
  | JDict d =>
      match d !! key with
      | Some v => Ok v
      | None => Ok default
      end
  | _ => Raise AttributeError
  end.

(** [x.strip()] *)
Definition strip (x : json) : outcome string :=
  match x with
  | JStr s => Ok (Str.strip s)
  | _ => Raise AttributeError
  end.

(** [len(x)] *)
Definition json_len (x : json) : outcome Z :=
  match x with
  | JList l => Ok (len l)
  | JDict d => Ok (Z.of_nat (size d))
  | JStr s => Ok (Z.of_nat (String.length s))
  | _ => Raise TypeError
  end.

(** The truth value of [x], as [if not x] reads it. *)
Definition truthy (x : json) : bool :=
  match x with
  | JNone => false
  | JBool b => b
  | JInt z => negb (z =? 0)
  | JStr s => negb (String.length s =? 0)%nat
  | JList l => negb (length l =? 0)%nat
  | JDict d => negb (size d =? 0)%nat
  end.

(** [for commit in x]: the items the loop visits. *)
Definition iterate (x : json) : outcome (list json) :=
  match x with
  | JList l => Ok l
  | JDict d => Ok (JStr <$> (map_to_list d).*1)
  | JStr s => Ok ((fun c => JStr (String c EmptyString)) <$>
                  list_ascii_of_string s)
  | _ => Raise TypeError
  end.

(** One entry of the list the function returns: the [commit_data]
    dictionary. The values copied from the payload are JSON values. *)
Record ApiRow : Type := {
  sha : json;
  author_name : json;
  author_email : json;
  committer_name : json;
  committer_email : json;
  datetime : Z;
  message : string;
  insertions : json;
  deletions : json;
  lines_changed : json;
  files_changed : Z;
  parents : Z
}.

Section Client.

(** [datetime.strptime(s, '%Y-%m-%dT%H:%M:%SZ')] on a JSON value: the
    naive datetime, or the exception raised. *)
Variable strptime : json -> outcome Z.

(** [requests.get(url, headers, params)], [raise_for_status()] and
    [json()] for the given [per_page] and [page]: the decoded body, or
    the exception raised. *)
Variable requests_get_json : Z -> Z -> outcome json.

(** The body of the inner [try]. *)
Definition commit_data (commit : json) : outcome ApiRow :=
  c ← subscript commit "commit";
  c_committer ← subscript c "committer";
  commit_date_str ← subscript c_committer "date";
  commit_datetime ← strptime commit_date_str;
  let utc_datetime := Datetime.replace_tzinfo_utc commit_datetime in
  let datetime_without_tz := Datetime.replace_tzinfo_none utc_datetime in
  v_sha ← subscript commit "sha";
  c_author ← subscript c "author";
  v_author_name ← subscript c_author "name";
  v_author_email ← subscript c_author "email";
  v_committer_name ← subscript c_committer "name";
  v_committer_email ← subscript c_committer "email";
  c_message ← subscript c "message";
  v_message ← strip c_message;
  stats1 ← get commit "stats" (JDict ∅);
  v_insertions ← get stats1 "additions" (JInt 0);
  stats2 ← get commit "stats" (JDict ∅);
  v_deletions ← get stats2 "deletions" (JInt 0);
  stats3 ← get commit "stats" (JDict ∅);
  v_lines_changed ← get stats3 "total" (JInt 0);
  v_files ← get commit "files" (JList []);
  v_files_changed ← json_len v_files;
  v_parents ← get commit "parents" (JList []);
  v_parents_len ← json_len v_parents;
  Ok {| sha := v_sha;
        author_name := v_author_name;
        author_email := v_author_email;
        committer_name := v_committer_name;
        committer_email := v_committer_email;
        datetime := datetime_without_tz;
        message := v_message;
        insertions := v_insertions;
        deletions := v_deletions;
        lines_changed := v_lines_changed;
        files_changed := v_files_changed;
        parents := v_parents_len |}.

(** The loop over the commits of one page. A commit whose processing
    raises is reported and skipped; the report reads [commit['sha']]. *)
Fixpoint page_loop (page_commits : list json) (commits : list ApiRow)
  : outcome (list ApiRow) :=
  match page_commits with
  | [] => Ok commits
  | commit :: rest =>
      match commit_data commit with
      | Ok row => page_loop rest (commits ++ [row])
      | Raise _ =>
          reported ← subscript commit "sha";
          page_loop rest commits
      end
  end.

(** The loop over the pages. A failed request ends the loop with the
    commits gathered so far; so does an empty page. *)
Fixpoint pages_loop (per_page : Z) (pages : list Z) (commits : list ApiRow)
  : outcome (list ApiRow) :=
  match pages with
  | [] => Ok commits
  | page :: rest =>
      match requests_get_json per_page page with
      | Raise RequestException => Ok commits
      | Raise e => Raise e
      | Ok page_commits =>
          if negb (truthy page_commits) then Ok commits
          else
            items ← iterate page_commits;
            commits' ← page_loop items commits;
            pages_loop per_page rest commits'
      end
  end.

Definition fetch_commits_from_github_api (per_page max_pages : Z)
  : outcome (list ApiRow) :=
  pages_loop per_page (seqZ 1 max_pages) [].

End Client.

End Api.


(** ** Saving and loading the frame: [to_csv] and [read_csv]

    [save_commit_data] is [commit_df.to_csv(filename, index=False)] and
    [load_commit_data] is [pd.read_csv(filename, parse_dates=['datetime'])].
    The file is modelled as the table of text cells it encodes (the
    quoting of a cell inside a line is not modelled); what the reader makes
    of one number or one date is a parameter. *)

Module Csv.

Record file : Type := {
  header : list string;
  body : list (list string)
}.

(** The columns, in the order of the keys of [commit_data]. *)
Definition columns : list string :=
  ["sha"; "author_name"; "author_email"; "committer_name";
   "committer_email"; "datetime"; "message"; "insertions"; "deletions";
   "lines_changed"; "files_changed"; "parents"].

(** A value of a loaded frame. *)
Inductive value : Type :=
| Str (s : string)
| Int (z : Z)
| Float (f : float)
| Bool (b : bool)
| Timestamp (t : Z)
| NaT.

(** A frame whose columns have the types the reader inferred. *)
Definition frame : Type := list (string * list value).

(** The cells [read_csv] reads as a missing value ([keep_default_na]). *)
Definition na_values : list string :=
  [""; "#N/A"; "#N/A N/A"; "#NA"; "-1.#IND"; "-1.#QNAN"; "-NaN"; "-nan";
   "1.#IND"; "1.#QNAN"; "<NA>"; "N/A"; "NA"; "NULL"; "NaN"; "None"; "n/a";
   "nan"; "null"].

Definition is_na (cell : string) : bool := bool_decide (cell ∈ na_values).

(** The cells read as a boolean. *)
Definition bool_text (cell : string) : option bool :=
  if bool_decide (cell ∈ ["True"; "TRUE"; "true"]) then Some true
  else if bool_decide (cell ∈ ["False"; "FALSE"; "false"]) then Some false
  else None.

(** [str(z)] *)
Definition str_int (z : Z) : string :=
  NilZero.string_of_int (Z.to_int z).

(** A number read from a cell. *)
Inductive number : Type :=
| NInt (z : Z)
| NFloat (f : float).

(** The typed view of a commit frame. *)
Definition frame_of (df : DataFrame) : frame :=
  let col {A} (f : CommitRecord -> A) (v : A -> value) :=
    (fun r => v (f r)) <$> rows df in
  [("sha", col sha Str);
   ("author_name", col author_name Str);
   ("author_email", col author_email Str);
   ("committer_name", col committer_name Str);
   ("committer_email", col committer_email Str);
   ("datetime", col datetime Timestamp);
   ("message", col message Str);
   ("insertions", col insertions Int);
   ("deletions", col deletions Int);
   ("lines_changed", col lines_changed Int);
   ("files_changed", col files_changed Int);
   ("parents", col parents Int)].

Section Codec.

(** The text [to_csv] writes for the cells of a datetime column. *)
Variable format_datetimes : list Z -> list string.

(** The reader's conversions of one cell that is not a missing value:
    to a number, and to a datetime. *)
Variable to_numeric : string -> option number.
Variable to_datetime : string -> option Z.

Definition row_cells (r : CommitRecord) (stamp : string) : list string :=
  [sha r; author_name r; author_email r; committer_name r;
   committer_email r; stamp; message r; str_int (insertions r);
   str_int (deletions r); str_int (lines_changed r);
   str_int (files_changed r); str_int (parents r)].

(** [df.to_csv(filename, index=False)] *)
Definition to_csv (df : DataFrame) : file :=
  {| header := columns;
     body := zip_with row_cells (rows df)
               (format_datetimes (datetime <$> rows df)) |}.

Definition as_int (cell : string) : option Z :=
  if is_na cell then None
  else match to_numeric cell with
       | Some (NInt z) => Some z
       | _ => None
       end.

Definition as_float (cell : string) : option float :=
  if is_na cell then Some NaN
  else match to_numeric cell with
       | Some (NInt z) => Some (Finite (inject_Z z))
       | Some (NFloat f) => Some f
       | None => None
       end.

Definition as_datetime (cell : string) : option value :=
  if is_na cell then Some NaT else Timestamp <$> to_datetime cell.

(** The type inference of the reader on the cells of one column: integers
    if every cell is one, else floats if every cell is a number or missing,
    else booleans, else text with [nan] for the missing cells. *)
Definition convert (cells : list string) : list value :=
  match mapM as_int cells with
  | Some zs => Int <$> zs
  | None =>
      match mapM as_float cells with
      | Some fs => Float <$> fs
      | None =>
          match mapM bool_text cells with
          | Some bs => Bool <$> bs
          | None =>
              (fun c => if is_na c then Float NaN else Str c) <$> cells
          end
      end
  end.


(** A column named in [parse_dates]: datetimes if every cell converts,
    else what the inference gives. *)
Definition convert_dates (cells : list string) : list value :=
  match mapM as_datetime cells with
  | Some ts => ts
  | None => convert cells
  end.

(** The cell of a row in column [i]; a short row is padded with missing
    values. *)
Definition cell (i : nat) (row : list string) : string :=
  default EmptyString (row !! i).

(** [pd.read_csv(filename, parse_dates=['datetime'])] *)
Definition read_csv (f : file) : outcome frame :=
  if decide (header f = []) then Raise EmptyDataError
  else if existsb (fun row => (length (header f) <? length row)%nat) (body f)
  then Raise ParserError
  else if bool_decide ("datetime" ∈ header f) then
    Ok (imap (fun i name =>
                let cells := cell i <$> body f in
                (name, if decide (name = "datetime")
                       then convert_dates cells else convert cells))
             (header f))
  else Raise (ValueError "Missing column provided to 'parse_dates'").

End Codec.

End Csv.


(** ** Notions the properties are stated with *)

Module Notions.


Section Values.
Context {K : Type} `{EqDecision K}.

(** The number of occurrences of a value. *)
Definition occurrences (k : K) (values : list K) : Z :=
  Z.of_nat (length (filter (fun v => v = k) values)).

(** The distinct values, in the order in which they are first met. *)
Definition first_seen (values : list K) : list K :=
  reverse (remove_dups (reverse values)).

(** The position at which a value is first met (the length of the list
    when it is not met). *)
Fixpoint index_of (k : K) (values : list K) : nat :=
  match values with
  | [] => 0
  | v :: rest => if decide (v = k) then 0 else S (index_of k rest)
  end.

(** [x] ranks before [y]: a larger count, or the same count and a key
    that comes first in the order [R]. *)
Definition ranked (R : relation K) (x y : K * Z) : Prop :=
  y.2 < x.2 \/ (y.2 = x.2 /\ R x.1 y.1).

End Values.

(** The commits the loop of [get_commit_history] builds a row for. *)
Definition visited (limit : option Z) (history : list Git.Commit)
  : list Git.Commit :=
  match limit with
  | Some n => if n =? 0 then history else take (Z.to_nat n) history
  | None => history
  end.

(** The row of a payload, when its processing does not raise. *)
Definition api_row (strptime : Api.json -> outcome Z) (commit : Api.json)
  : option Api.ApiRow :=
  match Api.commit_data strptime commit with
  | Ok row => Some row
  | Raise _ => None
  end.

End Notions.
Import Notions.

(** ** Sample inputs *)

Module Examples.

Definition alice : Git.Actor :=
  {| Git.name := "Alice"; Git.email := "alice@example.org" |}.
Definition bob : Git.Actor :=
  {| Git.name := "Bob"; Git.email := "bob@example.org" |}.

Definition stats_full : Git.Stats :=
  {| Git.total := {[ "insertions" := 10; "deletions" := 5; "lines" := 15;
                     "files" := 2 ]};
     Git.files := {[ "src/login.py" := {[ "insertions" := 7 ]};
                     "README.md" := {[ "insertions" := 3 ]} ]} |}.

Definition stats_partial : Git.Stats :=
  {| Git.total := {[ "insertions" := 3 ]};
     Git.files := {[ "setup.py" := ∅ ]} |}.

(** 2023-01-01 11:00:00 at +01:00. *)
Definition commit_a : Git.Commit :=
  {| Git.hexsha := "abc123"; Git.author := alice; Git.committer := alice;
     Git.committed_datetime :=
       {| Datetime.wall := 1672570800; Datetime.utcoffset := 3600 |};
     Git.message := "Fix bug in login ";
     Git.stats := Ok stats_full;
     Git.parents := ["def456"] |}.

(** 2022-12-31 19:30:00 at -05:00. *)
Definition commit_b : Git.Commit :=
  {| Git.hexsha := "def456"; Git.author := bob; Git.committer := alice;
     Git.committed_datetime :=
       {| Datetime.wall := 1672515000; Datetime.utcoffset := -18000 |};
     Git.message := "Add new feature";
     Git.stats := Ok stats_partial;
     Git.parents := [] |}.

(** A commit whose statistics git fails to compute. *)
Definition commit_failing : Git.Commit :=
  {| Git.hexsha := "0ff1ce"; Git.author := bob; Git.committer := bob;
     Git.committed_datetime :=
       {| Datetime.wall := 1672500000; Datetime.utcoffset := 0 |};
     Git.message := "Update documentation";
     Git.stats := Raise GitCommandError;
     Git.parents := [] |}.

Definition no_repo : string -> outcome Git.Repo :=
  fun _ => Raise InvalidGitRepositoryError.

Definition fetcher_ab : Fetcher.RepoDataFetcher :=
  {| Fetcher.repo_path := Some "data/axios";
     Fetcher.repo := Some {| Git.iter_commits := [commit_a; commit_b] |} |}.

Definition fetcher_failing : Fetcher.RepoDataFetcher :=
  {| Fetcher.repo_path := Some "data/axios";
     Fetcher.repo :=
       Some {| Git.iter_commits := [commit_a; commit_failing; commit_b] |} |}.

(** The rows of [commit_a] and [commit_b]. *)
Definition row_a : CommitRecord :=
  mkCommitRecord "abc123" "Alice" "alice@example.org" "Alice"
    "alice@example.org" 1672567200 "Fix bug in login" 10 5 15 2 1.
Definition row_b : CommitRecord :=
  mkCommitRecord "def456" "Bob" "bob@example.org" "Alice"
    "alice@example.org" 1672533000 "Add new feature" 3 0 0 1 0.

(** The sample frame of [analyzer.py]: commits at 10:00, 15:30 and
    09:15. *)
Definition sample_row (author : string) (t : Z) (files : Z) : CommitRecord :=
  mkCommitRecord "abc123" author "" "" "" t "" 10 5 15 files 1.
Definition sample_df : DataFrame :=
  {| numeric := int64;
     rows := [sample_row "Alice" 1672567200 2;
              sample_row "Bob" 1672673400 1;
              sample_row "Alice" 1672737300 3] |}.

(** Commits at 09:00, 09:40 and 14:05. *)
Definition hours_df : DataFrame :=
  {| numeric := int64;
     rows := [sample_row "Alice" 1672563600 1;
              sample_row "Bob" 1672652400 1;
              sample_row "Carol" 1672754700 1] |}.

End Examples.

Module ApiExamples.
Import Api.

(** A stand-in for [strptime] that knows one date. *)
Definition strptime_sample (x : json) : outcome Z :=
  match x with
  | JStr s =>
      if decide (s = "2023-01-01T10:00:00Z") then Ok 1672567200
      else Raise (ValueError "time data does not match format")
  | _ => Raise TypeError
  end.

Definition person (name : string) : json :=
  JDict {[ "name" := JStr name; "email" := JStr "dev@example.org";
           "date" := JStr "2023-01-01T10:00:00Z" ]}.

(** A commit of the list endpoint: no [stats], no [files]. *)
Definition payload_plain : json :=
  JDict {[ "sha" := JStr "abc123";
           "commit" := JDict {[ "author" := person "Alice";
                                "committer" := person "Alice";
                                "message" := JStr "Fix bug in login" ]};
           "parents" := JList [JDict {[ "sha" := JStr "def456" ]}] ]}.

(** A commit whose [stats] is [null]: reading the statistics raises. *)
Definition payload_null_stats : json :=
  JDict {[ "sha" := JStr "0ff1ce";
           "commit" := JDict {[ "author" := person "Bob";
                                "committer" := person "Bob";
                                "message" := JStr "Add new feature" ]};
           "stats" := JNone ]}.

Definition row_plain : ApiRow :=
  {| sha := JStr "abc123";
     author_name := JStr "Alice"; author_email := JStr "dev@example.org";
     committer_name := JStr "Alice";
     committer_email := JStr "dev@example.org";
     datetime := 1672567200; message := "Fix bug in login";
     insertions := JInt 0; deletions := JInt 0; lines_changed := JInt 0;
     files_changed := 0; parents := 1 |}.

End ApiExamples.

Module CsvExamples.
Import Csv.

(** A sample codec: integers are read from their decimal form, and a
    datetime is written as ["@"] followed by its seconds. *)
Definition sample_to_numeric (cell : string) : option number :=
  (fun d => NInt (Z.of_int d)) <$> NilZero.int_of_string cell.

Definition sample_format_datetimes (ts : list Z) : list string :=
  (fun t => String "@" (str_int t)) <$> ts.

Definition sample_to_datetime (cell : string) : option Z :=
  match cell with
  | String "@" digits => Z.of_int <$> NilZero.int_of_string digits
  | _ => None
  end.

(** One commit with an empty message. *)
Definition empty_message_df : DataFrame :=
  {| numeric := int64;
     rows := [mkCommitRecord "abc123" "Alice" "alice@example.org" "Alice"
                "alice@example.org" 1672567200 "" 0 0 0 0 1] |}.

(** The frame of [Examples.row_a] and [Examples.row_b]. *)
Definition two_commits_df : DataFrame :=
  {| numeric := int64; rows := [Examples.row_a; Examples.row_b] |}.

End CsvExamples.


(** ** Further notions: totals of a table, labels of a bucket *)

Module Tables.

(** The sum of the counts of a table of (key, count) rows. *)
Definition counts_total {K} (table : list (K * Z)) : Z :=
  foldr Z.add 0 table.*2.

(** The name [analyze_commit_time_distribution] gives day [d] (Monday is
    0) and month [m] (January is 1). *)
Definition day_label (d : Z) : string :=
  default EmptyString (Analyzer.day_names !! Z.to_nat d).
Definition month_label (m : Z) : string :=
  default EmptyString (Analyzer.month_names !! Z.to_nat (m - 1)).

(** The units [analyze_commit_time_distribution] knows. *)
Definition time_units : list string := ["hour"; "dayofweek"; "month"].

End Tables.

(** ** [analyze_commit_message_keywords] *)

Module Keywords.

(** The words the analyzer adds to the English stop words. *)
Definition domain_stop_words : list string :=
  ["fix"; "bug"; "issue"; "update"; "add"; "remove"].

(** [Counter(words).most_common(n)] for an integer [n]: the [n] entries
    with the largest counts, largest first, entries with equal counts in
    the order in which they were first counted; nothing for [n <= 0]. *)
Definition most_common (n : Z) (words : list string) : list (string * Z) :=
  if n <=? 0 then []
  else take (Z.to_nat n) (Pandas.sort_values_desc (Pandas.tally words)).

Section Nltk.

(** [stopwords.words('english')] and [nltk.word_tokenize] of NLTK, and
    [str.lower] and [str.isalpha]. *)
Variable english_stopwords : list string.
Variable word_tokenize : string -> list string.
Variable lower : string -> string.
Variable isalpha : string -> bool.

(** The set [stop_words] after its [update]. *)
Definition stop_words : list string :=
  english_stopwords ++ domain_stop_words.

(** The words one message contributes. *)
Definition message_words (message : string) : list string :=
  filter (fun word => isalpha word = true /\ word ∉ stop_words)
         (word_tokenize (lower message)).

(** The loop over the messages, with its accumulator [all_words]. *)
Definition collect_words (messages : list string) : list string :=
  foldl (fun all_words message => all_words ++ message_words message)
        [] messages.

(** The rows (keyword, count). *)
Definition analyze_commit_message_keywords (self : Analyzer.RepoAnalyzer)
    (top_n : Z) : list (string * Z) :=
  let all_words :=
    collect_words (message <$> rows (Analyzer.commit_df self)) in
  most_common top_n all_words.

End Nltk.

End Keywords.

Module KeywordExamples.

(** A stand-in tokenizer that splits at spaces and a stand-in stop list
    (the witnesses use the identity for [lower] and accept every word as
    alphabetic). *)
Fixpoint split_spaces (word : string) (s : string) : list string :=
  match s with
  | EmptyString =>
      match word with EmptyString => [] | _ => [word] end
  | String c rest =>
      if Ascii.eqb c " " then
        match word with
        | EmptyString => split_spaces EmptyString rest
        | _ => word :: split_spaces EmptyString rest
        end
      else split_spaces (word +:+ String c EmptyString) rest
  end.

Definition sample_tokenize (s : string) : list string :=
  split_spaces EmptyString s.

Definition sample_stopwords : list string := ["in"; "the"; "a"].

Definition keyword_row (message : string) : CommitRecord :=
  mkCommitRecord "abc123" "Alice" "" "" "" 0 message 0 0 0 0 1.

(** The messages of the sample of [analyzer.py], in lower case. *)
Definition keyword_df : DataFrame :=
  {| numeric := int64;
     rows := [keyword_row "fix bug in login";
              keyword_row "add new feature";
              keyword_row "update login documentation"] |}.

End KeywordExamples.

Module MoreExamples.

(** The sample frame with its first two rows exchanged. *)
Definition sample_df_reordered : DataFrame :=
  {| numeric := int64;
     rows := [Examples.sample_row "Bob" 1672673400 1;
              Examples.sample_row "Alice" 1672567200 2;
              Examples.sample_row "Alice" 1672737300 3] |}.

End MoreExamples.

(** ** Notions for the pages of the API *)

Module Pages.

(** A payload whose failure the loop can report: when its processing
    raises, it has a [sha] to print. *)
Definition reportable (strptime : Api.json -> outcome Z) (commit : Api.json)
  : Prop :=
  api_row strptime commit = None ->
  is_Ok (Api.subscript commit "sha") = true.

(** The answer to a request ends the loop over the pages: the request
    failed, or the body is empty. *)
Definition ends_paging (answer : outcome Api.json) : Prop :=
  answer = Raise RequestException
  \/ exists body, answer = Ok body /\ Api.truthy body = false.

End Pages.

Module PageExamples.
Import Api ApiExamples.

(** One page of two commits, then a failed request. *)
Definition one_page_then_failure (per_page page : Z) : outcome json :=
  if page =? 1 then Ok (JList [payload_null_stats; payload_plain])
  else Raise RequestException.

(** An answer that is an object, not a list. *)
Definition object_answer (per_page page : Z) : outcome json :=
  Ok (JDict {[ "message" := JStr "Not Found" ]}).

End PageExamples.

(** ** Paths, and the fetcher's dealings with the file system *)

Module Os.

Definition sep : ascii := "/"%char.

(** [p[:i]] and [p[i:]] for [i = p.rfind('/') + 1]. *)
Fixpoint rsplit (p : string) : string * string :=
  match p with
  | EmptyString => (EmptyString, EmptyString)
  | String c rest =>
      let (head, tail) := rsplit rest in
      match head with
      | String _ _ => (String c head, tail)
      | EmptyString =>
          if Ascii.eqb c sep then (String c EmptyString, tail)
          else (EmptyString, String c tail)
      end
  end.

(** [head == sep * len(head)] *)
Fixpoint all_sep (s : string) : bool :=
  match s with
  | EmptyString => true
  | String c rest => Ascii.eqb c sep && all_sep rest
  end.

(** [head.rstrip(sep)] *)
Fixpoint rstrip_sep (s : string) : string :=
  match s with
  | EmptyString => EmptyString
  | String c rest =>
      match rstrip_sep rest with
      | EmptyString =>
          if Ascii.eqb c sep then EmptyString else String c EmptyString
      | stripped => String c stripped
      end
  end.

(** [os.path.basename] and [os.path.dirname] of [posixpath]. *)
Definition basename (p : string) : string := (rsplit p).2.

Definition dirname (p : string) : string :=
  let head := (rsplit p).1 in
  match head with
  | EmptyString => head
  | String _ _ => if all_sep head then head else rstrip_sep head
  end.

(** [path.endswith(sep)] *)
Fixpoint ends_with_sep (s : string) : bool :=
  match s with
  | EmptyString => false
  | String c EmptyString => Ascii.eqb c sep
  | String _ rest => ends_with_sep rest
  end.

(** [os.path.join(a, b)] of [posixpath]. *)
Definition join (a b : string) : string :=
  match b with
  | String c _ =>
      if Ascii.eqb c sep then b
      else match a with
           | EmptyString => b
           | _ => if ends_with_sep a then a +:+ b
                  else a +:+ String sep b
           end
  | EmptyString =>
      match a with
      | EmptyString => b
      | _ => if ends_with_sep a then a else a +:+ String sep EmptyString
      end
  end.

(** [s.replace('.git', '')] *)
Fixpoint remove_dot_git (s : string) : string :=
  match s with
  | String "." (String "g" (String "i" (String "t" rest))) =>
      remove_dot_git rest
  | String c rest => String c (remove_dot_git rest)
  | EmptyString => EmptyString
  end.

(** [repo_url.split('/')[-1].replace('.git', '')] *)
Definition repo_name (repo_url : string) : string :=
  remove_dot_git (rsplit repo_url).2.

End Os.

Module Disk.
Import Fetcher.

Section FileSystem.

(** The file system, and the operations on it the fetcher calls:
    [os.path.isdir], [os.path.exists], [os.makedirs(name, exist_ok=True)],
    [git.Repo.clone_from(url, to_path)], writing the table of
    [to_csv(filename, index=False)] and reading the table of a file. *)
Variable FS : Type.
Variable isdir : FS -> string -> bool.
Variable path_exists : FS -> string -> bool.
Variable makedirs : string -> FS -> outcome FS.
Variable clone_from : string -> string -> FS -> outcome FS.
Variable write_table : string -> Csv.file -> FS -> outcome FS.
Variable read_table : string -> FS -> outcome Csv.file.

(** [datetime.now().strftime("%Y%m%d_%H%M%S")] *)
Variable now_stamp : string.

(** The codec of the CSV reader and writer. *)
Variable format_datetimes : list Z -> list string.
Variable to_numeric : string -> option Csv.number.
Variable to_datetime : string -> option Z.

(** The directory [clone_repo] settles on. *)
Definition resolve_target (fs : FS) (repo_url : string)
    (target_dir : option string) : string :=
  match target_dir with
  | None => Os.join "data" (Os.repo_name repo_url)
  | Some dir =>
      if isdir fs dir && negb (isdir fs (Os.join dir ".git"))
      then Os.join dir (Os.repo_name repo_url)
      else dir
  end.

(** [clone_repo]: the path returned, the fetcher with its new
    [repo_path], and the file system afterwards. *)
Definition clone_repo (self : RepoDataFetcher) (repo_url : string)
    (target_dir : option string) (fs : FS)
  : outcome (string * RepoDataFetcher * FS) :=
  let target_dir := resolve_target fs repo_url target_dir in
  fs1 ← makedirs target_dir fs;
  fs2 ← (if negb (path_exists fs1 (Os.join target_dir ".git"))
         then clone_from repo_url target_dir fs1
         else Ok fs1);
  Ok (target_dir,
      {| repo_path := Some target_dir; repo := repo self |},
      fs2).

(** [save_commit_data]: the file name returned and the file system
    afterwards. *)
Definition save_commit_data (self : RepoDataFetcher) (commit_df : DataFrame)
    (filename : option string) (fs : FS) : outcome (string * FS) :=
  filename ←
    match filename with
    | Some name => Ok name
    | None =>
        match repo_path self with
        | None => Raise TypeError
        | Some path =>
            let repo_name := Os.basename path in
            Ok (Os.join "data"
                  (repo_name +:+ "_commits_" +:+ now_stamp +:+ ".csv"))
        end
    end;
  fs1 ← makedirs (Os.dirname filename) fs;
  fs2 ← write_table filename (Csv.to_csv format_datetimes commit_df) fs1;
  Ok (filename, fs2).

(** [load_commit_data] *)
Definition load_commit_data (filename : string) (fs : FS)
  : outcome Csv.frame :=
  table ← read_table filename fs;
  Csv.read_csv to_numeric to_datetime table.

End FileSystem.

End Disk.

Module PathNotions.

(** The character [c] occurs in [s]. *)
Fixpoint contains (c : ascii) (s : string) : bool :=
  match s with
  | EmptyString => false
  | String c' rest => Ascii.eqb c' c || contains c rest
  end.

End PathNotions.

Module DiskExamples.
Import Fetcher.

(** A file system that is the table of its files: every directory can be
    made except the one with the empty name, a file is read back as it
    was written, and cloning is not possible. [no_such_file] stands for
    Python's [FileNotFoundError]. *)
Definition table_fs : Type := gmap string Csv.file.

Definition no_such_file : exn := ValueError "FileNotFoundError".

Definition table_makedirs (name : string) (fs : table_fs)
  : outcome table_fs :=
  match name with
  | EmptyString => Raise no_such_file
  | _ => Ok fs
  end.

Definition table_write (filename : string) (table : Csv.file)
    (fs : table_fs) : outcome table_fs :=
  Ok (<[filename := table]> fs).

Definition table_read (filename : string) (fs : table_fs)
  : outcome Csv.file :=
  match fs !! filename with
  | Some table => Ok table
  | None => Raise no_such_file
  end.

Definition no_clone (url dir : string) (fs : table_fs) : outcome table_fs :=
  Raise GitCommandError.

Definition already_cloned (fs : table_fs) (path : string) : bool := true.

End DiskExamples.

(** * Properties *)

(** ** The summaries of [RepoAnalyzer] *)

Module SummaryFacts.
Import Analyzer Examples.

Lemma truediv_nonzero d a b :
  b <> 0 -> truediv d a b = Ok (Finite (inject_Z a / inject_Z b)).
Proof.
  intros Hb. unfold truediv.
  destruct (Z.eqb_spec b 0) as [->|_]; [contradiction | reflexivity].
Qed.



Lemma filter_no_match (name : string) (l : list CommitRecord) :
  (forall r, r ∈ l -> author_name r <> name) ->
  filter (fun r => author_name r = name) l = [].
Proof.
  induction l as [|r l IH]; intros Hl; [done |].
  rewrite filter_cons. destruct (decide (author_name r = name)) as [Heq|_].
  - exfalso. apply (Hl r); [apply elem_of_cons; by left | done].
  - apply IH. intros r' Hr'. apply Hl. apply elem_of_cons. by right.
Qed.

(** C1: on a frame without rows, [analyze_file_changes] has no guard:
    the three averages are 0 / 0. With NumPy scalars the summary is
    returned with [nan] averages; with Python integers the division
    raises [ZeroDivisionError]. *)
Theorem analyze_file_changes_empty (d : dtype) :
  match analyze_file_changes (init {| numeric := d; rows := [] |}) with
  | Ok s =>
      d = int64
      /\ total_commits s = 0
      /\ is_nan (avg_files_per_commit s) = true
      /\ is_nan (avg_additions_per_commit s) = true
      /\ is_nan (avg_deletions_per_commit s) = true
  | Raise e => d = object /\ e = ZeroDivisionError
  end.
Proof. destruct d; cbn; repeat split. Qed.



(** C9: for a name that is the [author_name] of no row,
    [get_developer_productivity] returns [None]; nothing is raised, and
    no division takes place. *)
Theorem get_developer_productivity_not_found (df : DataFrame)
    (developer_name : string) :
  (forall r, r ∈ rows df -> author_name r <> developer_name) ->
  get_developer_productivity (init df) developer_name = Ok None.
Proof.
  intros Hno. unfold get_developer_productivity, init, by_author.
  cbn [commit_df rows]. by rewrite (filter_no_match _ _ Hno).
Qed.

Lemma get_developer_productivity_not_found_witness :
  get_developer_productivity (init sample_df) "NoSuchUser" = Ok None.
Proof.
  apply get_developer_productivity_not_found.
  intros r Hr. unfold sample_df in Hr. cbn [rows] in Hr.
  repeat (apply elem_of_cons in Hr as [-> | Hr]; [discriminate |]).
  inversion Hr.
Defined.

(** A developer with commits gets a summary: the function is total. *)
Lemma get_developer_productivity_total (df : DataFrame) (name : string) :
  is_Ok (get_developer_productivity (init df) name) = true.
Proof.
  unfold get_developer_productivity, init. cbn [commit_df].
  destruct (Z.eqb_spec (len (rows (by_author name df))) 0) as [|Hne]; [done |].
  by rewrite !truediv_nonzero by exact Hne.
Qed.

End SummaryFacts.

(** ** Counting and ranking: [value_counts], [sort_index], [head] *)

Module PandasFacts.
Import Pandas.

Section Counting.
Context {K : Type} `{EqDecision K}.
Implicit Types (k : K) (values : list K) (table : list (K * Z)).

Lemma occurrences_snoc k values v :
  occurrences k (values ++ [v])
  = occurrences k values + (if decide (v = k) then 1 else 0).
Proof.
  unfold occurrences. rewrite filter_app, length_app.
  rewrite filter_cons, filter_nil. destruct (decide (v = k)); simpl; lia.
Qed.

Lemma occurrences_pos k values : k ∈ values <-> 0 < occurrences k values.
Proof.
  unfold occurrences. induction values as [|v rest IH].
  - rewrite filter_nil. simpl. split; [intros H; inversion H | lia].
  - rewrite filter_cons, elem_of_cons. destruct (decide (v = k)) as [->|Hne].
    + simpl. split; [lia | auto].
    + rewrite <- IH. split; [intros [?|?]; [congruence | done] | auto].
Qed.

Lemma occurrences_absent k values : k ∉ values -> occurrences k values = 0.
Proof.
  intros Hk. destruct (decide (0 < occurrences k values)) as [Hpos|Hpos].
  - exfalso. by apply Hk, occurrences_pos.
  - unfold occurrences in *. lia.
Qed.

Lemma first_seen_snoc values v :
  first_seen (values ++ [v])
  = if decide (v ∈ values) then first_seen values else first_seen values ++ [v].
Proof.
  unfold first_seen. rewrite reverse_snoc. simpl.
  destruct (decide_rel elem_of v (reverse values)) as [Hin|Hin];
    rewrite elem_of_reverse in Hin; destruct (decide (v ∈ values)); try done.
  by rewrite reverse_cons.
Qed.

Lemma NoDup_first_seen values : NoDup (first_seen values).
Proof. unfold first_seen. rewrite reverse_Permutation. apply NoDup_remove_dups. Qed.

Lemma elem_of_first_seen k values : k ∈ first_seen values <-> k ∈ values.
Proof.
  unfold first_seen.
  by rewrite elem_of_reverse, elem_of_remove_dups, elem_of_reverse.
Qed.

Lemma length_first_seen values :
  length (first_seen values) = length (remove_dups values).
Proof.
  apply Permutation_length, NoDup_Permutation.
  - apply NoDup_first_seen.
  - apply NoDup_remove_dups.
  - intros k. by rewrite elem_of_first_seen, elem_of_remove_dups.
Qed.

Lemma index_of_lt k values : k ∈ values <-> (index_of k values < length values)%nat.
Proof.
  induction values as [|v rest IH]; simpl.
  - split; [intros H; inversion H | lia].
  - rewrite elem_of_cons. destruct (decide (v = k)) as [->|Hne].
    + split; [lia | auto].
    + rewrite IH. split; [intros [?|?]; [congruence | lia] | right; lia].
Qed.

Lemma index_of_app_l k values more :
  k ∈ values -> index_of k (values ++ more) = index_of k values.
Proof.
  induction values as [|v rest IH]; simpl; intros Hk.
  - inversion Hk.
  - destruct (decide (v = k)); [done |].
    f_equal. apply IH. apply elem_of_cons in Hk as [?|?]; [congruence | done].
Qed.

Lemma index_of_app_r k values more :
  k ∉ values -> index_of k (values ++ more) = (length values + index_of k more)%nat.
Proof.
  induction values as [|v rest IH]; simpl; intros Hk; [done |].
  apply not_elem_of_cons in Hk as [Hne Hk].
  destruct (decide (v = k)); [congruence |]. by rewrite IH.
Qed.

(** The distinct values are listed by increasing first position. *)
Lemma first_seen_sorted values :
  StronglySorted (fun a b => (index_of a values < index_of b values)%nat)
                 (first_seen values).
Proof.
  induction values as [|v values IH] using rev_ind.
  - constructor.
  - rewrite first_seen_snoc.
    assert (Hold : StronglySorted
              (fun a b => (index_of a (values ++ [v]) < index_of b (values ++ [v]))%nat)
              (first_seen values)).
    { clear -IH.
      assert (Hall : Forall (fun a => a ∈ values) (first_seen values)).
      { apply Forall_forall. intros a. apply elem_of_first_seen. }
      induction IH as [|a l Hs IHs Ha]; constructor.
      - apply IHs. by inversion Hall.
      - inversion Hall as [|?? Hin Hall']; subst.
        rewrite Forall_forall in Ha, Hall' |- *. intros b Hb.
        rewrite !index_of_app_l by auto. auto. }
    destruct (decide (v ∈ values)) as [Hin|Hin]; [exact Hold |].
    apply StronglySorted_app_2; [| exact Hold | repeat constructor].
    intros a b Ha Hb. apply list_elem_of_singleton in Hb as ->.
    rewrite elem_of_first_seen in Ha.
    rewrite (index_of_app_l a) by done. rewrite (index_of_app_r v) by done.
    apply index_of_lt in Ha. lia.
Qed.

(** *** The counting pass *)

Lemma bump_fresh k (f : K -> Z) (ks : list K) :
  k ∉ ks ->
  bump k ((fun x => (x, f x)) <$> ks) = ((fun x => (x, f x)) <$> ks) ++ [(k, 1)].
Proof.
  induction ks as [|x ks IH]; csimpl; intros Hk; [done |].
  apply not_elem_of_cons in Hk as [Hne Hk].
  destruct (decide (x = k)); [congruence |]. by rewrite IH.
Qed.

Lemma bump_present k (f : K -> Z) (ks : list K) :
  k ∈ ks -> NoDup ks ->
  bump k ((fun x => (x, f x)) <$> ks)
  = (fun x => (x, f x + (if decide (k = x) then 1 else 0))) <$> ks.
Proof.
  induction ks as [|x ks IH]; csimpl; intros Hk Hnd.
  - inversion Hk.
  - apply NoDup_cons in Hnd as [Hx Hnd].
    destruct (decide (x = k)) as [->|Hne].
    + destruct (decide (k = k)); [|done]. f_equal.
      apply list_fmap_ext. intros i y Hy.
      destruct (decide (k = y)) as [<-|]; [|f_equal; lia].
      exfalso. apply Hx. eapply list_elem_of_lookup_2; eauto.
    + destruct (decide (k = x)); [congruence |].
      rewrite Z.add_0_r. f_equal. apply IH; [|done].
      apply elem_of_cons in Hk as [?|?]; [congruence | done].
Qed.

Lemma tally_spec values :
  tally values = (fun k => (k, occurrences k values)) <$> first_seen values.
Proof.
  unfold tally. induction values as [|v values IH] using rev_ind; [done |].
  rewrite foldl_snoc, IH, first_seen_snoc.
  destruct (decide (v ∈ values)) as [Hin|Hin].
  - rewrite bump_present by (by rewrite ?elem_of_first_seen || apply NoDup_first_seen).
    apply list_fmap_ext. intros i k _. rewrite occurrences_snoc.
    destruct (decide (v = k)).
    all: destruct (decide (k = v)); congruence.
  - rewrite bump_fresh by (by rewrite elem_of_first_seen).
    rewrite fmap_app. simpl. f_equal.
    + apply list_fmap_ext. intros i k Hk. rewrite occurrences_snoc.
      destruct (decide (v = k)) as [->|]; [|f_equal; lia].
      exfalso. apply Hin. apply elem_of_first_seen.
      eapply list_elem_of_lookup_2; eauto.
    + rewrite occurrences_snoc, occurrences_absent by done.
      by destruct (decide (v = v)).
Qed.

End Counting.
End PandasFacts.

Module SortFacts.
Import Pandas PandasFacts.

Section Sorting.
Context {K : Type} `{EqDecision K}.
Implicit Types (x y : K * Z) (s l : list (K * Z)).

Lemma insert_desc_perm x s : insert_desc x s ≡ₚ x :: s.
Proof.
  induction s as [|y s IH]; simpl; [done |].
  destruct (x.2 <? y.2); [|done]. rewrite IH. apply Permutation_swap.
Qed.

Lemma sort_values_desc_perm l : sort_values_desc l ≡ₚ l.
Proof.
  induction l as [|x l IH]; simpl; [done |].
  by rewrite insert_desc_perm, IH.
Qed.

Lemma insert_desc_ranked (R : relation K) x s :
  StronglySorted (ranked R) s ->
  Forall (fun y => R x.1 y.1) s ->
  StronglySorted (ranked R) (insert_desc x s).
Proof.
  induction 1 as [|y s Hs IH Hy]; intros Hx; simpl.
  - repeat constructor.
  - apply Forall_cons in Hx as [Hxy Hx].
    destruct (Z.ltb_spec x.2 y.2) as [Hlt|Hge].
    + constructor; [by apply IH |].
      rewrite insert_desc_perm. constructor; [by left | done].
    + constructor; [by constructor |].
      constructor.
      * destruct (decide (y.2 = x.2)); [by right | left; lia].
      * rewrite Forall_forall in Hy, Hx |- *. intros z Hz.
        specialize (Hy z Hz). specialize (Hx z Hz).
        destruct (decide (z.2 = x.2)); [by right |].
        left. destruct Hy as [?|[? _]]; lia.
Qed.

Lemma sort_values_desc_ranked (R : relation K) l :
  StronglySorted (fun x y => R x.1 y.1) l ->
  StronglySorted (ranked R) (sort_values_desc l).
Proof.
  induction 1 as [|x l Hl IH Hx]; simpl; [constructor |].
  apply insert_desc_ranked; [done |]. by rewrite sort_values_desc_perm.
Qed.

End Sorting.

Lemma StronglySorted_lookup {A} (R : relation A) (l : list A) i j x y :
  StronglySorted R l -> (i < j)%nat ->
  l !! i = Some x -> l !! j = Some y -> R x y.
Proof.
  intros Hs. revert i j. induction Hs as [|a l Hs IH Ha]; intros i j Hij Hi Hj.
  - done.
  - destruct j as [|j]; [lia |]. destruct i as [|i]; simpl in *.
    + injection Hi as <-. rewrite Forall_forall in Ha.
      apply Ha. eapply list_elem_of_lookup_2; eauto.
    + apply (IH i j); [lia | done | done].
Qed.

Lemma StronglySorted_take {A} (R : relation A) (l : list A) n :
  StronglySorted R l -> StronglySorted R (take n l).
Proof.
  intros Hs. revert n. induction Hs as [|a l Hs IH Ha]; intros [|n]; simpl;
    try constructor; [apply IH |].
  eapply Forall_forall. intros b Hb. rewrite Forall_forall in Ha.
  apply Ha. apply elem_of_take in Hb as (i & Hi & _).
  eapply list_elem_of_lookup_2; eauto.
Qed.

Section Ranking.
Context {K : Type} `{EqDecision K}.
Implicit Types (values : list K).

Lemma value_counts_perm values :
  value_counts values
  ≡ₚ (fun k => (k, occurrences k values)) <$> first_seen values.
Proof. unfold value_counts. by rewrite sort_values_desc_perm, tally_spec. Qed.

Lemma value_counts_keys values : (value_counts values).*1 ≡ₚ first_seen values.
Proof.
  rewrite value_counts_perm, <- list_fmap_compose.
  by rewrite (list_fmap_ext _ id (first_seen values)), list_fmap_id.
Qed.

Lemma NoDup_value_counts values : NoDup (value_counts values).*1.
Proof. rewrite value_counts_keys. apply NoDup_first_seen. Qed.

Lemma length_value_counts values :
  length (value_counts values) = length (remove_dups values).
Proof.
  rewrite value_counts_perm, length_fmap. apply length_first_seen.
Qed.

Lemma elem_of_value_counts k c values :
  (k, c) ∈ value_counts values <-> c = occurrences k values /\ 0 < c.
Proof.
  rewrite value_counts_perm, list_elem_of_fmap. split.
  - intros (k' & [= -> ->] & Hk). split; [done |].
    by apply occurrences_pos, elem_of_first_seen.
  - intros [-> Hpos]. exists k. split; [done |].
    by apply elem_of_first_seen, occurrences_pos.
Qed.

Lemma value_counts_ranked values :
  StronglySorted
    (ranked (fun a b => (index_of a values < index_of b values)%nat))
    (value_counts values).
Proof.
  unfold value_counts. apply sort_values_desc_ranked.
  rewrite tally_spec.
  eapply StronglySorted_fmap; [| apply first_seen_sorted].
  intros a b Hab. exact Hab.
Qed.

End Ranking.
End SortFacts.

Module IndexFacts.
Import Pandas PandasFacts SortFacts.

Lemma insert_index_perm x s : insert_index x s ≡ₚ x :: s.
Proof.
  induction s as [|y s IH]; simpl; [done |].
  destruct (y.1 <? x.1); [|done]. rewrite IH. apply Permutation_swap.
Qed.

Lemma sort_index_perm l : sort_index l ≡ₚ l.
Proof.
  induction l as [|x l IH]; simpl; [done |].
  by rewrite insert_index_perm, IH.
Qed.

Lemma insert_index_ascending x s :
  StronglySorted (fun a b => a.1 < b.1) s ->
  x.1 ∉ s.*1 ->
  StronglySorted (fun a b => a.1 < b.1) (insert_index x s).
Proof.
  induction 1 as [|y s Hs IH Hy]; intros Hx.
  - repeat constructor.
  - rewrite fmap_cons in Hx. apply not_elem_of_cons in Hx as [Hne Hx].
    simpl. destruct (Z.ltb_spec y.1 x.1) as [Hlt|Hge].
    + constructor; [by apply IH |].
      rewrite insert_index_perm. by constructor.
    + constructor; [by constructor |].
      constructor; [lia |].
      eapply Forall_impl; [exact Hy |]. simpl. intros z Hz. lia.
Qed.

Lemma sort_index_ascending l :
  NoDup l.*1 -> StronglySorted (fun a b => a.1 < b.1) (sort_index l).
Proof.
  induction l as [|x l IH]; intros Hnd; [constructor |].
  rewrite fmap_cons in Hnd. apply NoDup_cons in Hnd as [Hx Hnd].
  simpl. apply insert_index_ascending; [by apply IH |].
  by rewrite sort_index_perm.
Qed.

End IndexFacts.

Module RankingFacts.
Import Analyzer Pandas PandasFacts SortFacts IndexFacts Examples.

Lemma occurrences_fmap {A K} `{EqDecision K} (f : A -> K) k (l : list A) :
  occurrences k (f <$> l)
  = Z.of_nat (length (filter (fun a => f a = k) l)).
Proof.
  unfold occurrences. f_equal.
  induction l as [|a l IH]; [done |].
  rewrite fmap_cons, !filter_cons.
  destruct (decide (f a = k)); simpl; by rewrite IH.
Qed.


(** For a negative [top_n], [head] drops rows from the end instead. *)
Example head_negative : head (-1) [1; 2; 3] = [1; 2].
Proof. reflexivity. Qed.


(** The sample frame of [analyzer.py]. *)
Example analyze_developer_activity_sample :
  analyze_developer_activity (init sample_df) 10 = [("Alice", 2); ("Bob", 1)].
Proof. reflexivity. Qed.

(** C6: with the unit ['hour'], [analyze_commit_time_distribution]
    returns one row per hour that occurs among the rows of the frame, with
    the number of rows at that hour, by increasing hour; an hour at which
    no commit was made has no row. Commits at the hours 9, 9 and 14 give
    the rows (9, 2) and (14, 1). *)
Theorem hour_distribution (df : DataFrame) :
  exists table : list (Z * Z),
    analyze_commit_time_distribution (init df) "hour"
    = Ok ((fun row => (Hour row.1, row.2)) <$> table)
    /\ StronglySorted (fun a b => a.1 < b.1) table
    /\ (forall h c, (h, c) ∈ table <->
          c = Z.of_nat (length (filter
                (fun r => Datetime.hour (datetime r) = h) (rows df)))
          /\ 0 < c)
    /\ (Datetime.hour <$> (datetime <$> rows df) = [9; 9; 14] ->
        table = [(9, 2); (14, 1)]).
Proof.
  exists (distribution (Datetime.hour <$> (datetime <$> rows df))).
  split; [reflexivity |]. split; [| split].
  - apply sort_index_ascending, NoDup_value_counts.
  - intros h c. unfold distribution.
    rewrite sort_index_perm, elem_of_value_counts.
    rewrite <- list_fmap_compose, occurrences_fmap. done.
  - intros ->. reflexivity.
Qed.

Lemma hour_distribution_witness :
  analyze_commit_time_distribution (init hours_df) "hour"
  = Ok [(Hour 9, 2); (Hour 14, 1)].
Proof.
  destruct (hour_distribution hours_df) as (table & -> & _ & _ & Htable).
  rewrite Htable; reflexivity.
Defined.

End RankingFacts.

(** ** History extraction *)

Module FetcherFacts.
Import Fetcher.

Lemma mapM_cons {A B} (f : A -> outcome B) x l :
  mapM f (x :: l) = y ← f x; k ← mapM f l; Ok (y :: k).
Proof. reflexivity. Qed.

Lemma mapM_Ok_Forall2 {A B} (f : A -> outcome B) l k :
  mapM f l = Ok k <-> Forall2 (fun x y => f x = Ok y) l k.
Proof.
  revert k. induction l as [|x l IH]; intros k.
  - split; [intros [= <-]; constructor | by inversion 1].
  - rewrite mapM_cons. split.
    + destruct (f x) as [y|e] eqn:Hx; [|done]. simpl.
      destruct (mapM f l) as [k'|e] eqn:Hl; [|done]. simpl.
      intros [= <-]. constructor; [done | by apply IH].
    + inversion 1 as [|? y ? k' Hx Hl]; subst. rewrite Hx. simpl.
      apply IH in Hl. by rewrite Hl.
Qed.



Lemma history_loop_unlimited limit it commits count :
  (limit = None \/ limit = Some 0) ->
  history_loop limit it commits count
  = rows ← mapM commit_data it; Ok (commits ++ rows).
Proof.
  intros Hlimit.
  assert (Hnever : forall c, limit_reached limit c = false).
  { intros c. by destruct Hlimit as [-> | ->]. }
  revert commits count. induction it as [|commit rest IH]; intros commits count.
  - simpl. by rewrite app_nil_r.
  - cbn [history_loop]. rewrite Hnever, mapM_cons.
    destruct (commit_data commit) as [row|e]; [|done]. simpl.
    rewrite IH. destruct (mapM commit_data rest); [|done]. simpl.
    by rewrite <- app_assoc.
Qed.

Lemma history_loop_limited n it commits count :
  n <> 0 ->
  history_loop (Some n) it commits count
  = rows ← mapM commit_data (take (Z.to_nat (n - count)) it);
    Ok (commits ++ rows).
Proof.
  intros Hn. revert commits count.
  induction it as [|commit rest IH]; intros commits count.
  - rewrite take_nil. simpl. by rewrite app_nil_r.
  - cbn [history_loop limit_reached].
    destruct (Z.eqb_spec n 0) as [|_]; [done |]. cbn [negb andb].
    destruct (Z.leb_spec n count) as [Hle|Hlt].
    + replace (Z.to_nat (n - count)) with 0%nat by lia.
      simpl. by rewrite app_nil_r.
    + replace (Z.to_nat (n - count)) with (S (Z.to_nat (n - (count + 1))))
        by lia.
      cbn [take]. rewrite mapM_cons.
      destruct (commit_data commit) as [row|e]; [|done]. simpl.
      rewrite IH.
      destruct (mapM commit_data (take (Z.to_nat (n - (count + 1))) rest));
        [|done].
      simpl. by rewrite <- app_assoc.
Qed.

Lemma history_loop_visited limit it :
  history_loop limit it [] 0 = mapM commit_data (visited limit it).
Proof.
  destruct limit as [n|]; [destruct (Z.eqb_spec n 0) as [->|Hn] |].
  - rewrite history_loop_unlimited by auto. simpl.
    by destruct (mapM commit_data it).
  - rewrite history_loop_limited by done. unfold visited.
    destruct (Z.eqb_spec n 0); [done |]. rewrite Z.sub_0_r.
    by destruct (mapM commit_data _).
  - rewrite history_loop_unlimited by auto. simpl.
    by destruct (mapM commit_data it).
Qed.

Section Repository.
Variable git_Repo : string -> outcome Git.Repo.

Lemma get_commit_history_visited self limit :
  get_commit_history git_Repo self limit
  = opened ← open_repo git_Repo self;
    pd_DataFrame <$> mapM commit_data (visited limit (Git.iter_commits opened.1)).
Proof.
  unfold get_commit_history. destruct (open_repo git_Repo self) as [o|e]; [|done].
  simpl. rewrite history_loop_visited. by destruct (mapM commit_data _).
Qed.

End Repository.
End FetcherFacts.

Module ApiFacts.
Import Api.

Section Client.
Variable strptime : json -> outcome Z.

Lemma page_loop_skips (l : list json) (commits : list ApiRow) :
  Forall (fun c => api_row strptime c = None ->
                   is_Ok (subscript c "sha") = true) l ->
  page_loop strptime l commits = Ok (commits ++ omap (api_row strptime) l).
Proof.
  intros Hl. revert commits.
  induction Hl as [|c l Hc _ IH]; intros commits; simpl.
  - by rewrite app_nil_r.
  - unfold api_row in *. destruct (commit_data strptime c) as [row|e].
    + rewrite IH. by rewrite <- app_assoc.
    + destruct (subscript c "sha"); [simpl; apply IH |].
      by specialize (Hc eq_refl).
Qed.



Lemma commit_data_datetime commit row :
  commit_data strptime commit = Ok row ->
  exists c committer date t,
    subscript commit "commit" = Ok c
    /\ subscript c "committer" = Ok committer
    /\ subscript committer "date" = Ok date
    /\ strptime date = Ok t
    /\ datetime row = t.
Proof.
  unfold commit_data. intros H.
  repeat match type of H with
  | mbind _ ?m = Ok _ =>
      let x := fresh "x" in let E := fresh "E" in
      destruct m as [x|] eqn:E; [cbn [mbind outcome_bind] in H | discriminate H]
  end.
  injection H as <-. cbn. eauto 10.
Qed.

End Client.
End ApiFacts.

Module ExtractionFacts.
Import Fetcher FetcherFacts Examples.

Lemma commit_data_Ok commit st :
  Git.stats commit = Ok st ->
  commit_data commit
  = Ok {| sha := Git.hexsha commit;
          author_name := Git.name (Git.author commit);
          author_email := Git.email (Git.author commit);
          committer_name := Git.name (Git.committer commit);
          committer_email := Git.email (Git.committer commit);
          datetime := Datetime.timestamp (Git.committed_datetime commit);
          message := Str.strip (Git.message commit);
          insertions := get (Git.total st) "insertions" 0;
          deletions := get (Git.total st) "deletions" 0;
          lines_changed := get (Git.total st) "lines" 0;
          files_changed := Z.of_nat (size (Git.files st));
          parents := len (Git.parents commit) |}.
Proof. intros H. unfold commit_data. rewrite H. reflexivity. Qed.

Lemma commit_data_Raise commit e :
  Git.stats commit = Raise e -> commit_data commit = Raise e.
Proof. intros H. unfold commit_data. rewrite H. reflexivity. Qed.

Lemma commit_data_inv commit row :
  commit_data commit = Ok row ->
  exists st, Git.stats commit = Ok st
    /\ sha row = Git.hexsha commit
    /\ datetime row = Datetime.timestamp (Git.committed_datetime commit).
Proof.
  destruct (Git.stats commit) as [st|e] eqn:Hst.
  - rewrite (commit_data_Ok _ _ Hst). intros [= <-]. by exists st.
  - by rewrite (commit_data_Raise _ _ Hst).
Qed.


Lemma rows_of_history (history : list Git.Commit) (records : list CommitRecord) :
  Forall2 (fun c r => commit_data c = Ok r) history records ->
  sha <$> records = Git.hexsha <$> history
  /\ Forall2 (fun c r =>
       datetime r = Datetime.timestamp (Git.committed_datetime c))
       history records.
Proof.
  induction 1 as [|c r history records Hc _ [IH1 IH2]]; [by split |].
  apply commit_data_inv in Hc as (st & _ & Hsha & Hdt).
  split; [csimpl; congruence | by constructor].
Qed.

Section Repository.
Variable git_Repo : string -> outcome Git.Repo.

Lemma get_commit_history_opened self opened self' limit :
  open_repo git_Repo self = Ok (opened, self') ->
  get_commit_history git_Repo self limit
  = pd_DataFrame <$> mapM commit_data (visited limit (Git.iter_commits opened)).
Proof. intros H. by rewrite get_commit_history_visited, H. Qed.

Lemma get_commit_history_inv self limit df :
  get_commit_history git_Repo self limit = Ok df ->
  exists opened self',
    open_repo git_Repo self = Ok (opened, self')
    /\ Forall2 (fun c r => commit_data c = Ok r)
         (visited limit (Git.iter_commits opened)) (rows df).
Proof.
  rewrite get_commit_history_visited.
  destruct (open_repo git_Repo self) as [[opened self']|e] eqn:Ho; [|done].
  cbn. destruct (mapM commit_data _) as [records|e] eqn:Hm; [|done].
  intros [= <-]. exists opened, self'. split; [done |].
  by apply mapM_Ok_Forall2.
Qed.

End Repository.

(** C10: a limit of 0 is read as no limit. [get_commit_history] with
    [limit = 0] returns what it returns with [limit = None], and a frame
    it returns has one row for every commit of the history. *)
Theorem limit_zero_is_no_limit (git_Repo : string -> outcome Git.Repo)
    (self : RepoDataFetcher) :
  get_commit_history git_Repo self (Some 0)
  = get_commit_history git_Repo self None
  /\ (forall opened self' df,
        open_repo git_Repo self = Ok (opened, self') ->
        get_commit_history git_Repo self (Some 0) = Ok df ->
        length (rows df) = length (Git.iter_commits opened)).
Proof.
  split.
  - by rewrite !get_commit_history_visited.
  - intros opened self' df Ho Hdf.
    apply get_commit_history_inv in Hdf as (o & s & Ho' & Hrows).
    rewrite Ho in Ho'. injection Ho' as <- <-.
    symmetry. exact (Forall2_length _ _ _ Hrows).
Qed.

Lemma limit_zero_is_no_limit_witness :
  get_commit_history no_repo fetcher_ab (Some 0)
  = get_commit_history no_repo fetcher_ab None
  /\ get_commit_history no_repo fetcher_ab (Some 0)
     = Ok (pd_DataFrame [row_a; row_b]).
Proof.
  split.
  - exact (proj1 (limit_zero_is_no_limit no_repo fetcher_ab)).
  - vm_compute. reflexivity.
Defined.

End ExtractionFacts.

Module ExtractionClaims.
Import Fetcher FetcherFacts ExtractionFacts Examples.




End ExtractionClaims.

Module TimestampClaims.
Import Fetcher FetcherFacts ExtractionFacts Examples.

Lemma astimezone_utc_same_instant (d : Datetime.aware) :
  Datetime.timestamp (Datetime.astimezone_utc d) = Datetime.timestamp d
  /\ Datetime.utcoffset (Datetime.astimezone_utc d) = 0.
Proof. unfold Datetime.timestamp, Datetime.astimezone_utc. simpl. lia. Qed.

(** C7: the [datetime] of every row is a naive value: the wall clock, at
    offset 0, of the instant of the commit. For [get_commit_history] it is
    the committed datetime moved to UTC with the zone dropped; for
    [fetch_commits_from_github_api] it is the datetime parsed from the
    committer date, which is written in UTC. Rows are therefore ordered by
    their [datetime] as their commits are ordered in time. *)
Theorem timestamps_are_utc_naive (git_Repo : string -> outcome Git.Repo)
    (strptime : Api.json -> outcome Z) :
  (forall self limit df row,
     get_commit_history git_Repo self limit = Ok df ->
     row ∈ rows df ->
     exists opened self' commit,
       open_repo git_Repo self = Ok (opened, self')
       /\ commit ∈ Git.iter_commits opened
       /\ sha row = Git.hexsha commit
       /\ datetime row
          = Datetime.replace_tzinfo_none
              (Datetime.astimezone_utc (Git.committed_datetime commit))
       /\ datetime row = Datetime.timestamp (Git.committed_datetime commit))
  /\ (forall c1 c2 r1 r2,
        commit_data c1 = Ok r1 -> commit_data c2 = Ok r2 ->
        (datetime r1 <= datetime r2
         <-> Datetime.timestamp (Git.committed_datetime c1)
             <= Datetime.timestamp (Git.committed_datetime c2)))
  /\ (forall commit row,
        Api.commit_data strptime commit = Ok row ->
        exists c committer date t,
          Api.subscript commit "commit" = Ok c
          /\ Api.subscript c "committer" = Ok committer
          /\ Api.subscript committer "date" = Ok date
          /\ strptime date = Ok t
          /\ Api.datetime row
             = Datetime.timestamp (Datetime.replace_tzinfo_utc t)).
Proof.
  split; [| split].
  - intros self limit df row Hdf Hrow.
    apply get_commit_history_inv in Hdf as (opened & self' & Ho & Hrows).
    exists opened, self'.
    apply list_elem_of_lookup in Hrow as [i Hi].
    destruct (Forall2_lookup_r _ _ _ _ _ Hrows Hi) as (commit & Hc & Hdata).
    exists commit. split; [done |]. split.
    { apply list_elem_of_lookup_2 in Hc. unfold visited in Hc.
      destruct limit as [n|]; [|done].
      destruct (n =? 0); [done |].
      apply elem_of_take in Hc as (j & Hj & _).
      by eapply list_elem_of_lookup_2. }
    apply commit_data_inv in Hdata as (st & _ & Hsha & Hdt).
    by rewrite Hdt.
  - intros c1 c2 r1 r2 H1 H2.
    apply commit_data_inv in H1 as (_ & _ & _ & ->).
    by apply commit_data_inv in H2 as (_ & _ & _ & ->).
  - intros commit row Hrow.
    destruct (ApiFacts.commit_data_datetime _ _ _ Hrow)
      as (c & committer & date & t & H1 & H2 & H3 & H4 & H5).
    exists c, committer, date, t. repeat split; try done.
    rewrite H5. unfold Datetime.timestamp, Datetime.replace_tzinfo_utc.
    simpl. lia.
Qed.

Lemma timestamps_are_utc_naive_witness :
  exists commit,
    commit ∈ [commit_a; commit_b]
    /\ datetime row_b = Datetime.timestamp (Git.committed_datetime commit).
Proof.
  destruct (proj1 (timestamps_are_utc_naive no_repo ApiExamples.strptime_sample)
              fetcher_ab None (pd_DataFrame [row_a; row_b]) row_b)
    as (opened & self' & commit & Ho & Hin & _ & _ & Hdt).
  - vm_compute. reflexivity.
  - apply elem_of_cons. right. apply elem_of_cons. by left.
  - exists commit. split; [|exact Hdt].
    vm_compute in Ho. injection Ho as <- _. exact Hin.
Defined.

End TimestampClaims.

Module FailurePolicyClaims.
Import Fetcher FetcherFacts ExtractionFacts Examples.




End FailurePolicyClaims.

(** ** Saving and loading *)

Module CsvFacts.
Import Csv CsvExamples.


End CsvFacts.

Module CsvRoundTrip.
Import Csv CsvExamples CsvFacts.

Lemma fmap_zip_with_rows {C} (h : list string -> C) l k :
  h <$> zip_with row_cells l k = zip_with (fun r s => h (row_cells r s)) l k.
Proof.
  revert k. induction l as [|r l IH]; intros [|s k]; csimpl; [done.. |].
  by rewrite IH.
Qed.

Lemma zip_with_const_l {A B C} (g : A -> C) (l : list A) (k : list B) :
  length l = length k -> zip_with (fun a _ => g a) l k = g <$> l.
Proof.
  revert k. induction l as [|a l IH]; intros [|b k] Hlen; csimpl; try done.
  f_equal. apply IH. simpl in Hlen. lia.
Qed.


Lemma rows_fit_header l k :
  existsb (fun row => (length columns <? length row)%nat)
          (zip_with row_cells l k) = false.
Proof.
  revert k. induction l as [|r l IH]; intros [|s k]; simpl; auto.
Qed.

Section Codec.
Variable format_datetimes : list Z -> list string.
Variable to_numeric : string -> option number.
Variable to_datetime : string -> option Z.





End Codec.
End CsvRoundTrip.

Module CsvClaims.
Import Csv CsvExamples CsvFacts CsvRoundTrip.


(** Whatever the codec, the frame with the empty message is not what
    comes back. *)
Lemma empty_message_not_restored format_datetimes to_numeric to_datetime :
  read_csv to_numeric to_datetime (to_csv format_datetimes empty_message_df)
  <> Ok (frame_of empty_message_df).
Proof.
  unfold to_csv.
  destruct (format_datetimes (datetime <$> rows empty_message_df))
    as [|stamp stamps]; intros H; injection H as _ _ _ _ _ _ Hmessage.
  - discriminate Hmessage.
  - cbn in Hmessage. discriminate Hmessage.
Qed.



End CsvClaims.


(** ** Time distributions by day and by month *)

Module CalendarFacts.

Lemma hour_range t : 0 <= Datetime.hour t < 24.
Proof.
  unfold Datetime.hour.
  pose proof (Z.mod_pos_bound t 86400 ltac:(lia)).
  split; [apply Z.div_pos; lia |].
  apply Z.div_lt_upper_bound; lia.
Qed.

Lemma dayofweek_range t : 0 <= Datetime.dayofweek t < 7.
Proof. unfold Datetime.dayofweek. apply Z.mod_pos_bound. lia. Qed.

Lemma month_range t : 1 <= Datetime.month t <= 12.
Proof.
  unfold Datetime.month.
  set (z := Datetime.days t + 719468).
  set (era := z `div` 146097).
  assert (Hdoe : 0 <= z - era * 146097 < 146097).
  { unfold era. pose proof (Z.mod_pos_bound z 146097 ltac:(lia)) as Hmod.
    rewrite Z.mod_eq in Hmod by lia. lia. }
  generalize dependent (z - era * 146097). intros doe Hdoe. cbv zeta.
  match goal with
  | |- context [if ?b then _ else _] => destruct b eqn:Hb
  end;
  [apply Z.ltb_lt in Hb | apply Z.ltb_ge in Hb];
  Z.to_euclidean_division_equations; lia.
Qed.

End CalendarFacts.

Module DistributionFacts.
Import Analyzer Pandas PandasFacts SortFacts IndexFacts RankingFacts.
Import Tables CalendarFacts Examples.

Lemma counts_total_perm {K} (t1 t2 : list (K * Z)) :
  t1 ≡ₚ t2 -> counts_total t1 = counts_total t2.
Proof.
  unfold counts_total.
  induction 1 as [|x l1 l2 _ IH|x y l|l1 l2 l3 _ IH1 _ IH2]; csimpl; lia.
Qed.

Lemma counts_total_bump {K} `{EqDecision K} (k : K) (table : list (K * Z)) :
  counts_total (bump k table) = counts_total table + 1.
Proof.
  unfold counts_total. induction table as [|[k' c] table IH]; [done |].
  simpl. destruct (decide (k' = k)); csimpl in *; lia.
Qed.

Lemma counts_total_tally {K} `{EqDecision K} (values : list K) :
  counts_total (tally values) = len values.
Proof.
  unfold tally, len.
  induction values as [|v values IH] using rev_ind; [done |].
  rewrite foldl_snoc, counts_total_bump, IH, length_app. simpl. lia.
Qed.

Lemma counts_total_value_counts {K} `{EqDecision K} (values : list K) :
  counts_total (value_counts values) = len values.
Proof.
  unfold value_counts.
  by rewrite (counts_total_perm _ _ (sort_values_desc_perm _)),
     counts_total_tally.
Qed.

Lemma counts_total_distribution (values : list Z) :
  counts_total (distribution values) = len values.
Proof.
  unfold distribution.
  by rewrite (counts_total_perm _ _ (sort_index_perm _)),
     counts_total_value_counts.
Qed.

Lemma distribution_keys (values : list Z) k c :
  (k, c) ∈ distribution values -> k ∈ values.
Proof.
  unfold distribution. rewrite sort_index_perm, elem_of_value_counts.
  intros [-> Hpos]. by apply occurrences_pos.
Qed.

Lemma getitem_in_range {A} (l : list A) (i : Z) (x : A) :
  l !! Z.to_nat i = Some x -> 0 <= i -> getitem l i = Ok x.
Proof.
  intros Hx Hi. unfold getitem.
  destruct (Z.ltb_spec i 0); [lia |].
  apply lookup_lt_Some in Hx as Hlt.
  destruct (Z.leb_spec 0 i); [|lia]. unfold len.
  destruct (Z.ltb_spec i (Z.of_nat (length l))); [|lia].
  simpl. by rewrite Hx.
Qed.

Lemma getitem_day d : 0 <= d < 7 -> getitem day_names d = Ok (day_label d).
Proof.
  intros Hd. unfold day_label.
  destruct (day_names !! Z.to_nat d) as [name|] eqn:Hname.
  - by apply getitem_in_range; [|lia].
  - apply lookup_ge_None in Hname. simpl in Hname. lia.
Qed.

Lemma getitem_month m :
  1 <= m <= 12 -> getitem month_names (m - 1) = Ok (month_label m).
Proof.
  intros Hm. unfold month_label.
  destruct (month_names !! Z.to_nat (m - 1)) as [name|] eqn:Hname.
  - by apply getitem_in_range; [|lia].
  - apply lookup_ge_None in Hname. simpl in Hname. lia.
Qed.

Lemma mapM_labels (f : Z * Z -> outcome (bucket * Z)) (g : Z * Z -> bucket * Z)
    (table : list (Z * Z)) :
  (forall row, row ∈ table -> f row = Ok (g row)) ->
  mapM f table = Ok (g <$> table).
Proof.
  intros H. apply FetcherFacts.mapM_Ok_Forall2, Forall2_fmap_r.
  apply Forall_Forall2_diag, Forall_forall. exact H.
Qed.

Lemma dayofweek_rows (df : DataFrame) :
  analyze_commit_time_distribution (init df) "dayofweek"
  = Ok ((fun row => (Name (day_label row.1), row.2)) <$>
        distribution (Datetime.dayofweek <$> (datetime <$> rows df))).
Proof.
  unfold analyze_commit_time_distribution, init. cbn [commit_df].
  do 2 (case_decide; try congruence).
  apply mapM_labels. intros [d c] Hrow.
  apply distribution_keys, list_elem_of_fmap in Hrow as (t & -> & _).
  cbn [fst snd]. by rewrite getitem_day by apply dayofweek_range.
Qed.

Lemma month_rows (df : DataFrame) :
  analyze_commit_time_distribution (init df) "month"
  = Ok ((fun row => (Name (month_label row.1), row.2)) <$>
        distribution (Datetime.month <$> (datetime <$> rows df))).
Proof.
  unfold analyze_commit_time_distribution, init. cbn [commit_df].
  do 3 (case_decide; try congruence).
  apply mapM_labels. intros [m c] Hrow.
  apply distribution_keys, list_elem_of_fmap in Hrow as (t & -> & _).
  cbn [fst snd]. by rewrite getitem_month by apply month_range.
Qed.

Lemma counts_total_relabel {K L} (g : K -> L) (table : list (K * Z)) :
  counts_total ((fun row => (g row.1, row.2)) <$> table) = counts_total table.
Proof.
  unfold counts_total. f_equal. rewrite <- list_fmap_compose.
  by apply list_fmap_ext.
Qed.

(** X1: [analyze_commit_time_distribution] returns a table for the
    units ['hour'], ['dayofweek'] and ['month'], whatever the frame: no
    lookup of a day or month name is out of range. The counts of the table
    add up to the number of rows of the frame. Any other unit raises
    [ValueError]. *)
Theorem time_distribution_units (df : DataFrame) (time_unit : string) :
  (time_unit ∈ time_units ->
   exists table,
     analyze_commit_time_distribution (init df) time_unit = Ok table
     /\ counts_total table = len (rows df))
  /\ (time_unit ∉ time_units ->
      exists msg,
        analyze_commit_time_distribution (init df) time_unit
        = Raise (ValueError msg)).
Proof.
  split.
  - unfold time_units. intros Hin.
    assert (Hlen : forall f : Z -> Z,
              len (f <$> (datetime <$> rows df)) = len (rows df)).
    { intros f. unfold len. by rewrite !length_fmap. }
    repeat (apply elem_of_cons in Hin as [-> | Hin]).
    + eexists. split; [reflexivity |].
      by rewrite (counts_total_relabel Hour), counts_total_distribution.
    + eexists. split; [apply dayofweek_rows |].
      by rewrite (counts_total_relabel (fun d => Name (day_label d))),
         counts_total_distribution.
    + eexists. split; [apply month_rows |].
      by rewrite (counts_total_relabel (fun m => Name (month_label m))),
         counts_total_distribution.
    + inversion Hin.
  - unfold time_units. intros Hout.
    rewrite !not_elem_of_cons in Hout. destruct Hout as (H1 & H2 & H3 & _).
    unfold analyze_commit_time_distribution.
    do 3 (case_decide; [congruence |]). by eexists.
Qed.

Lemma time_distribution_units_witness :
  (exists table,
     analyze_commit_time_distribution (init sample_df) "dayofweek" = Ok table
     /\ counts_total table = 3)
  /\ (exists msg,
        analyze_commit_time_distribution (init sample_df) "century"
        = Raise (ValueError msg)).
Proof.
  destruct (time_distribution_units sample_df "dayofweek") as [Hin _].
  destruct (time_distribution_units sample_df "century") as [_ Hout].
  split.
  - apply Hin. unfold time_units. set_solver.
  - apply Hout. unfold time_units. intros H.
    repeat (apply elem_of_cons in H as [H | H]; [discriminate H |]).
    inversion H.
Defined.


(** The sample frame: a Sunday, a Monday and a Tuesday of January. *)
Example calendar_distributions_sample :
  analyze_commit_time_distribution (init sample_df) "dayofweek"
  = Ok [(Name "周一", 1); (Name "周二", 1); (Name "周日", 1)]
  /\ analyze_commit_time_distribution (init sample_df) "month"
     = Ok [(Name "一月", 3)].
Proof. split; reflexivity. Qed.

End DistributionFacts.


(** ** Rankings, developers and the order of the rows *)

Module DeveloperFacts.
Import Analyzer Pandas PandasFacts SortFacts IndexFacts RankingFacts.
Import Tables DistributionFacts SummaryFacts Examples.

Lemma elem_of_head {A} (n : Z) (l : list A) x : x ∈ head n l -> x ∈ l.
Proof.
  unfold head. destruct (0 <=? n); intros Hx;
    apply elem_of_take in Hx as (i & Hi & _);
    by eapply list_elem_of_lookup_2.
Qed.

Lemma head_all {A} (n : Z) (l : list A) : len l <= n -> head n l = l.
Proof.
  unfold head, len. intros Hn. destruct (Z.leb_spec 0 n); [|lia].
  apply take_ge. lia.
Qed.

Lemma length_remove_dups_le {K} `{EqDecision K} (values : list K) :
  (length (remove_dups values) <= length values)%nat.
Proof.
  induction values as [|v values IH]; simpl; [lia |].
  destruct (decide_rel elem_of v values); simpl; lia.
Qed.

Lemma developer_present (df : DataFrame) (name : string) :
  name ∈ author_name <$> rows df ->
  len (rows (by_author name df)) <> 0.
Proof.
  intros Hin. apply occurrences_pos in Hin.
  rewrite occurrences_fmap in Hin. unfold by_author, len. cbn [rows]. lia.
Qed.



(** X4: the ranking and the per-developer summary agree: every row
    (developer, commit_count) of [analyze_developer_activity], for any
    [top_n], names a developer for whom [get_developer_productivity]
    returns a summary with the same [commit_count]. *)
Theorem ranking_agrees_with_productivity (df : DataFrame) (top_n : Z)
    (name : string) (count : Z) :
  (name, count) ∈ analyze_developer_activity (init df) top_n ->
  exists p,
    get_developer_productivity (init df) name = Ok (Some p)
    /\ developer p = name
    /\ commit_count p = count.
Proof.
  intros Hrow. unfold analyze_developer_activity, init in Hrow.
  cbn [commit_df] in Hrow.
  apply elem_of_head, elem_of_value_counts in Hrow as [-> Hpos].
  apply occurrences_pos in Hpos as Hin.
  pose proof (developer_present df name Hin) as Hne.
  unfold get_developer_productivity, init. cbn [commit_df].
  destruct (Z.eqb_spec (len (rows (by_author name df))) 0) as [|_]; [done |].
  rewrite !truediv_nonzero by exact Hne.
  eexists. split; [reflexivity |]. cbn. split; [done |].
  by rewrite occurrences_fmap.
Qed.

Lemma ranking_agrees_with_productivity_witness :
  exists p,
    get_developer_productivity (init sample_df) "Bob" = Ok (Some p)
    /\ developer p = "Bob"
    /\ commit_count p = 1.
Proof.
  apply (ranking_agrees_with_productivity sample_df 10 "Bob" 1).
  vm_compute. apply elem_of_cons. right. apply elem_of_cons. by left.
Defined.

Lemma counts_total_take_le {K} (table : list (K * Z)) (n : nat) :
  Forall (fun row => 0 <= row.2) table ->
  0 <= counts_total (take n table) <= counts_total table.
Proof.
  unfold counts_total. intros Hpos. revert n.
  induction Hpos as [|row table Hrow _ IH]; intros [|n]; csimpl; try lia.
  - assert (0 <= foldr Z.add 0 table.*2) by (specialize (IH 0%nat); simpl in IH; lia).
    lia.
  - specialize (IH n). lia.
Qed.

Lemma value_counts_nonneg {K} `{EqDecision K} (values : list K) :
  Forall (fun row => 0 <= row.2) (value_counts values).
Proof.
  apply Forall_forall. intros [k c] Hin.
  apply elem_of_value_counts in Hin as [_ Hpos]. simpl. lia.
Qed.

(** X5: the counts of the rows [analyze_developer_activity] returns
    never add up to more than the number of commits, whatever [top_n]. With
    a [top_n] of at least the number of distinct author names nothing is
    cut off: every author name of the frame has a row, and the counts add
    up to exactly the number of commits. *)
Theorem ranking_totals (df : DataFrame) (top_n : Z) :
  let names := author_name <$> rows df in
  let result := analyze_developer_activity (init df) top_n in
  0 <= counts_total result <= len (rows df)
  /\ (Z.of_nat (length (remove_dups names)) <= top_n ->
      counts_total result = len (rows df)
      /\ length result = length (remove_dups names)
      /\ (forall name, name ∈ names -> exists count, (name, count) ∈ result)).
Proof.
  intros names result.
  assert (Htotal : counts_total (value_counts names) = len (rows df)).
  { rewrite counts_total_value_counts. unfold names, len.
    by rewrite length_fmap. }
  split.
  - unfold result, analyze_developer_activity, init, head. cbn [commit_df].
    fold names. rewrite <- Htotal.
    destruct (0 <=? top_n);
      apply counts_total_take_le, value_counts_nonneg.
  - intros Hn.
    assert (Hres : result = value_counts names).
    { unfold result, analyze_developer_activity, init. cbn [commit_df].
      apply head_all. unfold len. rewrite length_value_counts. exact Hn. }
    rewrite Hres. split; [exact Htotal |].
    split; [apply length_value_counts |].
    intros name Hname. exists (occurrences name names).
    apply elem_of_value_counts. split; [done |].
    by apply occurrences_pos.
Qed.

Lemma ranking_totals_witness :
  counts_total (analyze_developer_activity (init sample_df) 10) = 3
  /\ exists count,
       ("Bob", count) ∈ analyze_developer_activity (init sample_df) 10.
Proof.
  destruct (ranking_totals sample_df 10) as [_ Hfull].
  destruct Hfull as (Htotal & _ & Hall).
  - vm_compute. discriminate.
  - split; [exact Htotal |]. apply Hall. cbn. set_solver.
Defined.


End DeveloperFacts.

Module RowOrderFacts.
Import Analyzer Pandas PandasFacts SortFacts IndexFacts RankingFacts.
Import Tables DistributionFacts DeveloperFacts Examples.

Lemma column_sum_perm (col : CommitRecord -> Z) (df1 df2 : DataFrame) :
  rows df1 ≡ₚ rows df2 -> column_sum col df1 = column_sum col df2.
Proof.
  unfold column_sum. generalize (rows df1) (rows df2).
  induction 1 as [|x l1 l2 _ IH|x y l|l1 l2 l3 _ IH1 _ IH2]; csimpl; lia.
Qed.

Lemma occurrences_perm {K} `{EqDecision K} (k : K) (v1 v2 : list K) :
  v1 ≡ₚ v2 -> occurrences k v1 = occurrences k v2.
Proof. intros H. unfold occurrences. by rewrite H. Qed.

Lemma value_counts_of_perm {K} `{EqDecision K} (v1 v2 : list K) :
  v1 ≡ₚ v2 -> value_counts v1 ≡ₚ value_counts v2.
Proof.
  intros Hperm. apply NoDup_Permutation.
  - eapply NoDup_fmap_1, NoDup_value_counts.
  - eapply NoDup_fmap_1, NoDup_value_counts.
  - intros [k c]. rewrite !elem_of_value_counts.
    by rewrite (occurrences_perm k v1 v2 Hperm).
Qed.

Lemma distribution_of_perm (v1 v2 : list Z) :
  v1 ≡ₚ v2 -> distribution v1 = distribution v2.
Proof.
  intros Hperm.
  apply (StronglySorted_unique_strong (fun a b : Z * Z => a.1 < b.1)).
  - intros x1 x2 _ _ H12 H21. lia.
  - apply sort_index_ascending, NoDup_value_counts.
  - apply sort_index_ascending, NoDup_value_counts.
  - unfold distribution. rewrite !sort_index_perm.
    by apply value_counts_of_perm.
Qed.

(** X7: the order of the rows of the frame does not matter to the
    summaries: two frames with the same rows in a different order give the
    same [analyze_file_changes], the same
    [analyze_commit_time_distribution] for every unit and the same
    [get_developer_productivity] for every name; the full developer
    ranking has the same rows, up to the order of developers with equal
    counts. *)
Theorem row_order_is_irrelevant (df1 df2 : DataFrame) :
  numeric df1 = numeric df2 ->
  rows df1 ≡ₚ rows df2 ->
  analyze_file_changes (init df1) = analyze_file_changes (init df2)
  /\ (forall time_unit,
        analyze_commit_time_distribution (init df1) time_unit
        = analyze_commit_time_distribution (init df2) time_unit)
  /\ (forall name,
        get_developer_productivity (init df1) name
        = get_developer_productivity (init df2) name)
  /\ (forall top_n, len (rows df1) <= top_n ->
        analyze_developer_activity (init df1) top_n
        ≡ₚ analyze_developer_activity (init df2) top_n).
Proof.
  intros Hnum Hperm.
  assert (Hlen : len (rows df1) = len (rows df2)).
  { unfold len. by rewrite Hperm. }
  split; [| split; [| split]].
  - unfold analyze_file_changes, init. cbn [commit_df].
    by rewrite Hnum, Hlen, !(column_sum_perm _ df1 df2 Hperm).
  - intros time_unit.
    assert (Hd : forall f : Z -> Z,
              distribution (f <$> (datetime <$> rows df1))
              = distribution (f <$> (datetime <$> rows df2))).
    { intros f. apply distribution_of_perm. by rewrite Hperm. }
    unfold analyze_commit_time_distribution, init. cbn [commit_df].
    by rewrite !Hd.
  - intros name.
    assert (Hby : rows (by_author name df1) ≡ₚ rows (by_author name df2)).
    { unfold by_author. cbn [rows]. by rewrite Hperm. }
    unfold get_developer_productivity, init. cbn [commit_df].
    assert (Hlen' : len (rows (by_author name df1))
                    = len (rows (by_author name df2))).
    { unfold len. by rewrite Hby. }
    assert (Hnum' : numeric (by_author name df1)
                    = numeric (by_author name df2)) by exact Hnum.
    by rewrite Hlen', Hnum', !(column_sum_perm _ _ _ Hby).
  - intros top_n Hn.
    unfold analyze_developer_activity, init. cbn [commit_df].
    rewrite !head_all.
    + apply value_counts_of_perm. by rewrite Hperm.
    + pose proof (length_remove_dups_le (author_name <$> rows df2)) as Hle.
      unfold len in *. rewrite length_value_counts.
      rewrite length_fmap in Hle. lia.
    + pose proof (length_remove_dups_le (author_name <$> rows df1)) as Hle.
      unfold len in *. rewrite length_value_counts.
      rewrite length_fmap in Hle. lia.
Qed.

Lemma row_order_is_irrelevant_witness :
  analyze_file_changes (init sample_df)
  = analyze_file_changes (init MoreExamples.sample_df_reordered)
  /\ analyze_commit_time_distribution (init sample_df) "hour"
     = analyze_commit_time_distribution
         (init MoreExamples.sample_df_reordered) "hour".
Proof.
  destruct (row_order_is_irrelevant sample_df MoreExamples.sample_df_reordered)
    as (Hfiles & Htime & _).
  - reflexivity.
  - apply Permutation_swap.
  - split; [exact Hfiles | apply Htime].
Defined.

End RowOrderFacts.


(** ** Keywords of the commit messages *)

Module KeywordFacts.
Import Analyzer Pandas PandasFacts SortFacts Keywords KeywordExamples.

Section Nltk.
Variable english_stopwords : list string.
Variable word_tokenize : string -> list string.
Variable lower : string -> string.
Variable isalpha : string -> bool.

Let words_of := message_words english_stopwords word_tokenize lower isalpha.
Let collected :=
  collect_words english_stopwords word_tokenize lower isalpha.
Let keywords :=
  analyze_commit_message_keywords english_stopwords word_tokenize lower
    isalpha.

Lemma collect_words_concat (messages : list string) :
  collected messages = mjoin (words_of <$> messages).
Proof.
  unfold collected, collect_words. fold words_of.
  induction messages as [|m messages IH] using rev_ind; [done |].
  rewrite foldl_snoc, IH, fmap_app, join_app. simpl.
  by rewrite app_nil_r.
Qed.

Lemma elem_of_collect_words (word : string) (messages : list string) :
  word ∈ collected messages
  <-> exists m, m ∈ messages /\ word ∈ words_of m.
Proof.
  rewrite collect_words_concat, list_elem_of_join. split.
  - intros (ws & Hword & Hws).
    apply list_elem_of_fmap in Hws as (m & -> & Hm). eauto.
  - intros (m & Hm & Hword). exists (words_of m).
    split; [done |]. apply list_elem_of_fmap. eauto.
Qed.

Lemma elem_of_most_common (n : Z) (words : list string) word count :
  (word, count) ∈ most_common n words ->
  count = occurrences word words /\ 0 < count.
Proof.
  unfold most_common. destruct (n <=? 0); [by intros ?%elem_of_nil |].
  intros Hin. apply elem_of_take in Hin as (i & Hi & _).
  by apply list_elem_of_lookup_2, elem_of_value_counts in Hi.
Qed.

(** X8: every keyword [analyze_commit_message_keywords] returns is a
    token of some lower-cased commit message, is alphabetic, and is neither
    an English stop word nor one of [fix], [bug], [issue], [update], [add],
    [remove]; its count is the number of times it occurs among the tokens
    that are kept, over all messages. *)
Theorem keywords_are_filtered (df : DataFrame) (top_n : Z)
    (word : string) (count : Z) :
  (word, count) ∈ keywords (init df) top_n ->
  isalpha word = true
  /\ (word ∉ english_stopwords)
  /\ (word ∉ domain_stop_words)
  /\ (exists r, r ∈ rows df /\ word ∈ word_tokenize (lower (message r)))
  /\ count = occurrences word (collected (message <$> rows df))
  /\ 0 < count.
Proof.
  unfold keywords, analyze_commit_message_keywords, init. cbn [commit_df].
  fold collected. intros Hin. apply elem_of_most_common in Hin as [-> Hpos].
  apply occurrences_pos in Hpos as Hword.
  apply elem_of_collect_words in Hword as (m & Hm & Hword).
  apply list_elem_of_fmap in Hm as (r & -> & Hr).
  unfold words_of, message_words in Hword.
  apply list_elem_of_filter in Hword as [[Halpha Hstop] Htoken].
  unfold stop_words in Hstop. rewrite not_elem_of_app in Hstop.
  destruct Hstop as [Henglish Hdomain].
  repeat split; try done. by exists r.
Qed.

(** X9: [analyze_commit_message_keywords] returns at most [top_n] rows
    and none for [top_n <= 0]; no keyword has two rows; the rows are ordered
    by count, largest first, and of two keywords with equal counts the one
    that occurs first in the messages comes first. *)
Theorem keywords_are_ranked (df : DataFrame) (top_n : Z) :
  let words := collected (message <$> rows df) in
  let result := keywords (init df) top_n in
  Z.of_nat (length result) <= Z.max 0 top_n
  /\ NoDup result.*1
  /\ (forall i j x y, (i < j)%nat ->
        result !! i = Some x -> result !! j = Some y ->
        y.2 <= x.2
        /\ (y.2 = x.2 -> (index_of x.1 words < index_of y.1 words)%nat)).
Proof.
  intros words result.
  unfold result, keywords, analyze_commit_message_keywords, init, most_common.
  cbn [commit_df]. fold collected. fold words.
  destruct (Z.leb_spec top_n 0) as [Hle|Hgt].
  - split; [simpl; lia |]. split; [constructor |].
    intros i j x y _ Hx. by rewrite lookup_nil in Hx.
  - change (sort_values_desc (tally words)) with (value_counts words).
    split; [rewrite length_take; lia |]. split.
    + rewrite fmap_take.
      eapply sublist_NoDup; [apply NoDup_value_counts | apply sublist_take].
    + intros i j x y Hij Hx Hy.
      pose proof (StronglySorted_lookup _ _ i j x y
          (StronglySorted_take _ _ (Z.to_nat top_n) (value_counts_ranked words))
          Hij Hx Hy) as [Hlt | [Heq Hfirst]].
      * split; lia.
      * split; [lia | done].
Qed.

End Nltk.

Lemma keywords_are_filtered_witness :
  ("login" ∉ domain_stop_words)
  /\ 2 = occurrences "login"
           (collect_words sample_stopwords sample_tokenize id (fun _ => true)
              (message <$> rows keyword_df)).
Proof.
  destruct (keywords_are_filtered sample_stopwords sample_tokenize id
              (fun _ => true) keyword_df 3 "login" 2)
    as (_ & _ & Hdomain & _ & Hcount & _).
  - vm_compute. apply elem_of_cons. by left.
  - split; [exact Hdomain | exact Hcount].
Defined.

(** The sample messages: [fix], [bug], [add] and [update] are dropped. *)
Example keywords_sample :
  analyze_commit_message_keywords sample_stopwords sample_tokenize id
    (fun _ => true) (init keyword_df) 3
  = [("login", 2); ("new", 1); ("feature", 1)].
Proof. vm_compute. reflexivity. Qed.

End KeywordFacts.


(** ** More on [RepoDataFetcher] *)

Module RepositoryFacts.
Import Fetcher FetcherFacts ExtractionFacts Examples.

Lemma mapM_take {A B} (f : A -> outcome B) (l : list A) (k : list B) n :
  mapM f l = Ok k -> mapM f (take n l) = Ok (take n k).
Proof.
  rewrite !mapM_Ok_Forall2. apply Forall2_take.
Qed.

Lemma visited_negative n history : n < 0 -> visited (Some n) history = [].
Proof.
  intros Hn. unfold visited. destruct (Z.eqb_spec n 0); [lia |].
  replace (Z.to_nat n) with 0%nat by lia. apply take_0.
Qed.

(** X10: with a negative limit [get_commit_history] returns a frame
    without rows, and looks at no commit: it does so even when the
    statistics of the commits cannot be computed. *)
Theorem negative_limit_returns_nothing
    (git_Repo : string -> outcome Git.Repo)
    (self self' : RepoDataFetcher) (opened : Git.Repo) (n : Z) :
  open_repo git_Repo self = Ok (opened, self') ->
  n < 0 ->
  get_commit_history git_Repo self (Some n) = Ok (pd_DataFrame []).
Proof.
  intros Ho Hn.
  rewrite (get_commit_history_opened _ _ _ _ _ Ho).
  by rewrite visited_negative.
Qed.

Lemma negative_limit_returns_nothing_witness :
  get_commit_history no_repo fetcher_failing (Some (-1))
  = Ok (pd_DataFrame []).
Proof.
  apply (negative_limit_returns_nothing no_repo fetcher_failing fetcher_failing
           {| Git.iter_commits := [commit_a; commit_failing; commit_b] |}).
  - reflexivity.
  - lia.
Defined.

(** X11: a limit cuts the unlimited result and changes nothing else:
    when [get_commit_history] without a limit returns a frame, the call
    with a positive limit [n] returns the first [n] rows of that frame. *)
Theorem limited_history_is_prefix (git_Repo : string -> outcome Git.Repo)
    (self : RepoDataFetcher) (n : Z) (full : DataFrame) :
  0 < n ->
  get_commit_history git_Repo self None = Ok full ->
  get_commit_history git_Repo self (Some n)
  = Ok (pd_DataFrame (take (Z.to_nat n) (rows full))).
Proof.
  intros Hn. rewrite !get_commit_history_visited.
  destruct (open_repo git_Repo self) as [[opened self']|e]; [|done].
  cbn. unfold visited. destruct (Z.eqb_spec n 0); [lia |].
  destruct (mapM commit_data (Git.iter_commits opened)) as [records|e] eqn:Hm;
    [|done].
  cbn. intros [= <-]. cbn [rows pd_DataFrame].
  by rewrite (mapM_take _ _ _ _ Hm).
Qed.

Lemma limited_history_is_prefix_witness :
  get_commit_history no_repo fetcher_ab (Some 1) = Ok (pd_DataFrame [row_a]).
Proof.
  apply (limited_history_is_prefix no_repo fetcher_ab 1
           (pd_DataFrame [row_a; row_b])).
  - lia.
  - vm_compute. reflexivity.
Defined.

(** X12: the rows keep the identity of the commits: when the commits
    of the repository have pairwise distinct hashes, so have the rows of
    every frame [get_commit_history] returns. *)
Theorem rows_have_distinct_sha (git_Repo : string -> outcome Git.Repo)
    (self self' : RepoDataFetcher) (opened : Git.Repo) (limit : option Z)
    (df : DataFrame) :
  open_repo git_Repo self = Ok (opened, self') ->
  NoDup (Git.hexsha <$> Git.iter_commits opened) ->
  get_commit_history git_Repo self limit = Ok df ->
  NoDup (sha <$> rows df).
Proof.
  intros Ho Hnd Hdf.
  apply get_commit_history_inv in Hdf as (o & s & Ho' & Hrows).
  rewrite Ho in Ho'. injection Ho' as <- <-.
  apply rows_of_history in Hrows as [-> _].
  eapply sublist_NoDup; [exact Hnd |].
  apply fmap_sublist. unfold visited.
  destruct limit as [n|]; [|done].
  destruct (n =? 0); [done | apply sublist_take].
Qed.

Lemma rows_have_distinct_sha_witness :
  NoDup (sha <$> rows (pd_DataFrame [row_a; row_b])).
Proof.
  apply (rows_have_distinct_sha no_repo fetcher_ab fetcher_ab
           {| Git.iter_commits := [commit_a; commit_b] |} None).
  - reflexivity.
  - cbn. apply NoDup_cons. split; [|apply NoDup_singleton].
    intros Hin. apply list_elem_of_singleton in Hin. discriminate Hin.
  - vm_compute. reflexivity.
Defined.

(** X13: [open_repo] fails with [ValueError] when no path is set or the
    path is empty, without asking git; it passes on the failure of
    [git.Repo] for a path that is not a repository; and so does
    [get_commit_history], whatever the limit. *)
Theorem open_repo_failures (git_Repo : string -> outcome Git.Repo)
    (self : RepoDataFetcher) (limit : option Z) :
  ((repo_path self = None \/ repo_path self = Some EmptyString) ->
   exists msg,
     open_repo git_Repo self = Raise (ValueError msg)
     /\ get_commit_history git_Repo self limit = Raise (ValueError msg))
  /\ (forall path e,
        repo_path self = Some path -> path <> EmptyString ->
        repo self = None -> git_Repo path = Raise e ->
        open_repo git_Repo self = Raise e
        /\ get_commit_history git_Repo self limit = Raise e).
Proof.
  split.
  - intros [Hp | Hp]; eexists; unfold get_commit_history, open_repo;
      rewrite Hp; split; reflexivity.
  - intros path e Hp Hne Hr Hg.
    unfold get_commit_history, open_repo. rewrite Hp, Hr.
    destruct path; [done |]. by rewrite Hg.
Qed.

Lemma open_repo_failures_witness :
  get_commit_history no_repo
    {| repo_path := Some "not/a/repository"; repo := None |} (Some 5)
  = Raise InvalidGitRepositoryError.
Proof.
  destruct (open_repo_failures no_repo
              {| repo_path := Some "not/a/repository"; repo := None |}
              (Some 5)) as [_ H].
  by destruct (H "not/a/repository" InvalidGitRepositoryError) as [_ ?].
Defined.

(** X14: [open_repo] opens the repository once: the fetcher it returns
    holds the repository, keeps its path, and a later [open_repo] on it
    returns the same repository without asking git again (whatever
    [git.Repo] would then answer). *)
Theorem open_repo_is_cached (git_Repo : string -> outcome Git.Repo)
    (self self' : RepoDataFetcher) (opened : Git.Repo) :
  open_repo git_Repo self = Ok (opened, self') ->
  repo self' = Some opened
  /\ repo_path self' = repo_path self
  /\ (forall git_Repo' : string -> outcome Git.Repo,
        open_repo git_Repo' self' = Ok (opened, self')).
Proof.
  unfold open_repo. intros H.
  destruct (repo_path self) as [[|c path]|] eqn:Hp; try discriminate H.
  destruct (repo self) as [r|] eqn:Hr.
  - injection H as <- <-. rewrite Hp, Hr. by repeat split.
  - destruct (git_Repo (String c path)) as [r|e]; [|discriminate H].
    cbn in H. injection H as <- <-. cbn. by repeat split.
Qed.

Lemma open_repo_is_cached_witness :
  open_repo (fun _ => Ok {| Git.iter_commits := [commit_a] |}) fetcher_ab
  = Ok ({| Git.iter_commits := [commit_a; commit_b] |}, fetcher_ab).
Proof.
  apply (open_repo_is_cached no_repo fetcher_ab fetcher_ab
           {| Git.iter_commits := [commit_a; commit_b] |}).
  reflexivity.
Defined.

End RepositoryFacts.


(** ** The pages of [fetch_commits_from_github_api] *)

Module PaginationFacts.
Import Api ApiFacts Pages ApiExamples PageExamples.

Section Client.
Variable strptime : json -> outcome Z.
Variable requests_get_json : Z -> Z -> outcome json.

Lemma pages_loop_pages (per_page : Z) (bodies : list (list json)) :
  forall (start len : Z) (commits : list ApiRow),
  Z.of_nat (length bodies) <= len ->
  (forall i items, bodies !! i = Some items ->
     requests_get_json per_page (start + Z.of_nat i) = Ok (JList items)
     /\ items <> []
     /\ Forall (reportable strptime) items) ->
  (Z.of_nat (length bodies) = len
   \/ ends_paging
        (requests_get_json per_page (start + Z.of_nat (length bodies)))) ->
  pages_loop strptime requests_get_json per_page (seqZ start len) commits
  = Ok (commits ++ omap (api_row strptime) (mjoin bodies)).
Proof.
  induction bodies as [|items bodies IH]; intros start len commits Hlen Hpages Hend.
  - simpl. rewrite app_nil_r. simpl in *.
    destruct (Z.le_gt_cases len 0) as [Hle|Hgt]; [by rewrite seqZ_nil |].
    rewrite seqZ_cons by done. simpl.
    destruct Hend as [Hzero | Hend]; [lia |].
    rewrite Z.add_0_r in Hend.
    destruct Hend as [-> | (body & -> & Hbody)]; [done |].
    by rewrite Hbody.
  - simpl in Hlen. rewrite seqZ_cons by lia. cbn [pages_loop].
    destruct (Hpages 0%nat items eq_refl) as (Hreq & Hne & Hitems).
    rewrite Z.add_0_r in Hreq. rewrite Hreq.
    assert (Htruthy : truthy (JList items) = true) by by destruct items.
    rewrite Htruthy. cbn [negb iterate mbind outcome_bind].
    rewrite (page_loop_skips strptime _ _ Hitems).
    cbn [mbind outcome_bind].
    rewrite (IH (Z.succ start) (Z.pred len)).
    + cbn [mjoin list_join]. by rewrite omap_app, app_assoc.
    + lia.
    + intros i its Hi. specialize (Hpages (S i) its Hi).
      by replace (Z.succ start + Z.of_nat i) with (start + Z.of_nat (S i))
        by lia.
    + destruct Hend as [Hzero | Hend]; [left; simpl in Hzero; lia | right].
      by replace (Z.succ start + Z.of_nat (length bodies))
        with (start + Z.of_nat (length (items :: bodies)))
        by (simpl; lia).
Qed.

(** X15: [fetch_commits_from_github_api] asks for the pages 1, 2, ...
    in turn, at most [max_pages] of them, and stops at the first page whose
    request fails or whose body is empty. It returns the rows of the
    commits of the pages before that one, in order, leaving out the
    commits whose processing raised; a failed request is not an error of
    the function, which then returns what it has gathered. *)
Theorem fetch_gathers_pages (per_page max_pages : Z)
    (bodies : list (list json)) :
  Z.of_nat (length bodies) <= max_pages ->
  (forall i items, bodies !! i = Some items ->
     requests_get_json per_page (1 + Z.of_nat i) = Ok (JList items)
     /\ items <> []
     /\ Forall (reportable strptime) items) ->
  (Z.of_nat (length bodies) = max_pages
   \/ ends_paging
        (requests_get_json per_page (1 + Z.of_nat (length bodies)))) ->
  fetch_commits_from_github_api strptime requests_get_json per_page max_pages
  = Ok (omap (api_row strptime) (mjoin bodies)).
Proof.
  intros Hlen Hpages Hend. unfold fetch_commits_from_github_api.
  by rewrite (pages_loop_pages per_page bodies 1 max_pages []).
Qed.

(** X16: with [max_pages <= 0] [fetch_commits_from_github_api] sends no
    request and returns the empty list; and when the first request fails
    it returns the empty list as well, not an error. *)
Theorem fetch_without_pages (per_page max_pages : Z) :
  (max_pages <= 0 ->
   fetch_commits_from_github_api strptime requests_get_json per_page max_pages
   = Ok [])
  /\ (requests_get_json per_page 1 = Raise RequestException ->
      fetch_commits_from_github_api strptime requests_get_json per_page
        max_pages = Ok []).
Proof.
  unfold fetch_commits_from_github_api. split.
  - intros Hn. by rewrite seqZ_nil.
  - intros Hreq. destruct (Z.le_gt_cases max_pages 0) as [Hle|Hgt].
    + by rewrite seqZ_nil.
    + rewrite seqZ_cons by done. simpl. by rewrite Hreq.
Qed.

(** X17: when the body of a page is a non-empty JSON object instead of
    a list, the loop runs over its keys; a key is a string, reading it as
    a commit raises, reporting it raises again, and this second exception
    leaves the function: [fetch_commits_from_github_api] raises
    [TypeError]. *)
Theorem fetch_object_body_raises (per_page max_pages : Z)
    (d : gmap string json) :
  0 < max_pages ->
  d <> ∅ ->
  requests_get_json per_page 1 = Ok (JDict d) ->
  fetch_commits_from_github_api strptime requests_get_json per_page max_pages
  = Raise TypeError.
Proof.
  intros Hn Hd Hreq. unfold fetch_commits_from_github_api.
  rewrite seqZ_cons by done. simpl. rewrite Hreq.
  apply map_size_non_empty_iff in Hd as Hsize.
  cbn [truthy]. destruct (Nat.eqb_spec (size d) 0) as [|_]; [done |].
  cbn [negb iterate mbind outcome_bind].
  destruct (map_to_list d) as [|[key v] items] eqn:Hitems.
  - by apply map_to_list_empty_iff in Hitems.
  - reflexivity.
Qed.

End Client.

Lemma fetch_gathers_pages_witness :
  fetch_commits_from_github_api strptime_sample one_page_then_failure 100 5
  = Ok [row_plain].
Proof.
  rewrite (fetch_gathers_pages strptime_sample one_page_then_failure 100 5
             [[payload_null_stats; payload_plain]]).
  - vm_compute. reflexivity.
  - simpl. lia.
  - intros [|i] items Hi; [|by destruct i].
    injection Hi as <-. split; [reflexivity |]. split; [done |].
    repeat constructor.
  - right. left. reflexivity.
Defined.

Lemma fetch_without_pages_witness :
  fetch_commits_from_github_api strptime_sample one_page_then_failure 100 0
  = Ok [].
Proof.
  apply (proj1 (fetch_without_pages strptime_sample one_page_then_failure
                  100 0)).
  lia.
Defined.

Lemma fetch_object_body_raises_witness :
  fetch_commits_from_github_api strptime_sample object_answer 100 5
  = Raise TypeError.
Proof.
  apply (fetch_object_body_raises strptime_sample object_answer 100 5
           {[ "message" := JStr "Not Found" ]}).
  - lia.
  - apply insert_non_empty.
  - reflexivity.
Defined.

End PaginationFacts.


(** ** What loading a saved frame always gives, and what it loses *)

Module LoadFacts.
Import Csv CsvExamples CsvFacts CsvRoundTrip.

Section Codec.
Variable format_datetimes : list Z -> list string.
Variable to_numeric : string -> option number.
Variable to_datetime : string -> option Z.



Lemma convert_missing (cells : list string) (i : nat) (c : string) :
  cells !! i = Some c -> is_na c = true ->
  convert to_numeric cells !! i = Some (Float NaN).
Proof.
  intros Hi Hna. unfold convert.
  assert (mapM (as_int to_numeric) cells = None) as ->.
  { apply mapM_None, Exists_exists. exists c.
    split; [by eapply list_elem_of_lookup_2 |].
    unfold as_int. by rewrite Hna. }
  destruct (mapM (as_float to_numeric) cells) as [fs|] eqn:Hfloat.
  { apply mapM_Some_1 in Hfloat.
    destruct (Forall2_lookup_l _ _ _ _ _ Hfloat Hi) as (f & Hf & Hcf).
    rewrite list_lookup_fmap, Hf. unfold as_float in Hcf.
    rewrite Hna in Hcf. by injection Hcf as <-. }
  assert (mapM bool_text cells = None) as ->.
  { apply mapM_None, Exists_exists. exists c.
    split; [by eapply list_elem_of_lookup_2 |].
    unfold is_na in Hna. apply bool_decide_eq_true in Hna.
    unfold na_values in Hna.
    repeat (apply elem_of_cons in Hna as [-> | Hna]; [reflexivity |]).
    inversion Hna. }
  by rewrite list_lookup_fmap, Hi; simpl; rewrite Hna.
Qed.


(** X19: a missing-value marker never comes back as text. When the
    message of a commit is empty, or is [NA], [null], [None], [nan] or
    another marker of the reader, the loaded frame has [nan] as the message
    of that commit, whatever the other commits are. *)
Theorem load_loses_marker_messages (df : DataFrame) (i : nat)
    (r : CommitRecord) :
  length (format_datetimes (datetime <$> rows df)) = length (rows df) ->
  rows df !! i = Some r ->
  is_na (message r) = true ->
  exists loaded messages,
    read_csv to_numeric to_datetime (to_csv format_datetimes df) = Ok loaded
    /\ loaded !! 6%nat = Some ("message", messages)
    /\ messages !! i = Some (Float NaN).
Proof.
  intros Hlen Hi Hna. unfold read_csv, to_csv. cbn [header body].
  rewrite rows_fit_header.
  destruct (decide (columns = [])) as [Hc|_]; [discriminate Hc |].
  replace (bool_decide ("datetime" ∈ columns)) with true
    by (symmetry; apply bool_decide_eq_true; unfold columns; set_solver).
  eexists _, _. split; [reflexivity |].
  unfold columns. cbn [imap lookup list_lookup compose].
  case_decide as Hname; [discriminate Hname |].
  split; [reflexivity |].
  apply (convert_missing _ i (message r)); [|exact Hna].
  rewrite fmap_zip_with_rows. cbn.
  rewrite (zip_with_const_l message) by done.
  by rewrite list_lookup_fmap, Hi.
Qed.


End Codec.


Lemma load_loses_marker_messages_witness :
  exists loaded messages,
    read_csv sample_to_numeric sample_to_datetime
      (to_csv sample_format_datetimes empty_message_df) = Ok loaded
    /\ loaded !! 6%nat = Some ("message", messages)
    /\ messages !! 0%nat = Some (Float NaN).
Proof.
  apply (load_loses_marker_messages sample_format_datetimes sample_to_numeric
           sample_to_datetime empty_message_df 0
           (mkCommitRecord "abc123" "Alice" "alice@example.org" "Alice"
              "alice@example.org" 1672567200 "" 0 0 0 0 1));
    reflexivity.
Defined.


End LoadFacts.


(** ** Paths, saving and cloning *)

Module PathFacts.
Import Os PathNotions.

Lemma contains_app c (a b : string) :
  contains c (a +:+ b) = contains c a || contains c b.
Proof.
  induction a as [|c' a IH]; simpl; [done |].
  rewrite IH. by rewrite orb_assoc.
Qed.

Lemma rsplit_no_sep (s : string) :
  contains sep s = false -> rsplit s = (EmptyString, s).
Proof.
  induction s as [|c s IH]; simpl; [done |].
  intros H. apply orb_false_iff in H as [Hc Hs].
  by rewrite (IH Hs), Hc.
Qed.

Lemma rsplit_tail_no_sep (p : string) : contains sep (rsplit p).2 = false.
Proof.
  induction p as [|c p IH]; simpl; [done |].
  destruct (rsplit p) as [head tail]. simpl in IH.
  destruct head; [|done].
  destruct (Ascii.eqb c sep) eqn:Hc; simpl; [done |].
  by rewrite Hc.
Qed.

Lemma rsplit_after_sep (a s : string) :
  contains sep s = false ->
  rsplit (a +:+ String sep s) = (a +:+ String sep EmptyString, s).
Proof.
  intros Hs. induction a as [|c a IH]; simpl.
  - by rewrite (rsplit_no_sep s Hs).
  - rewrite IH. by destruct a.
Qed.

Lemma dirname_no_sep (s : string) :
  contains sep s = false -> dirname s = EmptyString.
Proof. intros Hs. unfold dirname. by rewrite (rsplit_no_sep s Hs). Qed.

Lemma basename_no_sep (p : string) : contains sep (basename p) = false.
Proof. apply rsplit_tail_no_sep. Qed.

Lemma dirname_in_data (s : string) :
  contains sep s = false -> dirname ("data" +:+ String sep s) = "data".
Proof.
  intros Hs. unfold dirname. by rewrite (rsplit_after_sep "data" s Hs).
Qed.

Lemma basename_in_data (s : string) :
  contains sep s = false -> basename ("data" +:+ String sep s) = s.
Proof.
  intros Hs. unfold basename. by rewrite (rsplit_after_sep "data" s Hs).
Qed.

Lemma join_data (s : string) :
  contains sep s = false -> join "data" s = "data" +:+ String sep s.
Proof.
  intros Hs. destruct s as [|c s]; [done |].
  simpl in Hs. apply orb_false_iff in Hs as [Hc _].
  unfold join. by rewrite Hc.
Qed.




End PathFacts.

Module DiskFacts.
Import Fetcher Os PathNotions PathFacts Disk DiskExamples Examples.

Section FileSystem.
Variable FS : Type.
Variable isdir : FS -> string -> bool.
Variable path_exists : FS -> string -> bool.
Variable makedirs : string -> FS -> outcome FS.
Variable clone_from : string -> string -> FS -> outcome FS.
Variable write_table : string -> Csv.file -> FS -> outcome FS.
Variable read_table : string -> FS -> outcome Csv.file.
Variable now_stamp : string.
Variable format_datetimes : list Z -> list string.
Variable to_numeric : string -> option Csv.number.
Variable to_datetime : string -> option Z.

(** X21: [save_commit_data] asks [os.makedirs] for the directory part of
    the file name. For a file name without directory part, such as
    ["commits.csv"], this is the empty name, which [os.makedirs] refuses:
    the call ends with that exception and nothing is written. *)
Theorem save_bare_filename_fails (self : RepoDataFetcher) (df : DataFrame)
    (filename : string) (fs : FS) (e : exn) :
  contains sep filename = false ->
  makedirs EmptyString fs = Raise e ->
  save_commit_data FS makedirs write_table now_stamp format_datetimes
    self df (Some filename) fs = Raise e.
Proof.
  intros Hname Hmk. unfold save_commit_data. cbn [mbind outcome_bind].
  by rewrite (dirname_no_sep filename Hname), Hmk.
Qed.

(** X22: without a file name, [save_commit_data] writes to
    [data/<name>_commits_<stamp>.csv], where [<name>] is the last
    component of the repository path: it makes the directory [data] and
    no other, and the file lies in it. Without a repository path either,
    it raises [TypeError]. *)
Theorem save_default_filename (self : RepoDataFetcher) (df : DataFrame)
    (fs : FS) :
  contains sep now_stamp = false ->
  (forall path,
     repo_path self = Some path ->
     let name := basename path +:+ "_commits_" +:+ now_stamp +:+ ".csv" in
     let filename := "data" +:+ String sep name in
     dirname filename = "data"
     /\ basename filename = name
     /\ save_commit_data FS makedirs write_table now_stamp format_datetimes
          self df None fs
        = (fs1 ← makedirs "data" fs;
           fs2 ← write_table filename (Csv.to_csv format_datetimes df) fs1;
           Ok (filename, fs2)))
  /\ (repo_path self = None ->
      save_commit_data FS makedirs write_table now_stamp format_datetimes
        self df None fs = Raise TypeError).
Proof.
  intros Hstamp. split.
  - intros path Hpath name filename.
    assert (Hname : contains sep name = false).
    { unfold name. rewrite !contains_app, basename_no_sep, Hstamp. done. }
    split; [by apply dirname_in_data |].
    split; [by apply basename_in_data |].
    unfold save_commit_data. rewrite Hpath. cbn [mbind outcome_bind].
    fold name. rewrite (join_data name Hname).
    by rewrite (dirname_in_data name Hname).
  - intros Hpath. unfold save_commit_data. by rewrite Hpath.
Qed.

(** X23: on a file system that reads a file back as it was written,
    [load_commit_data] of the file name [save_commit_data] returned for a
    frame with at least one row reads the table that was saved: it is
    [read_csv] of [to_csv] of the frame. *)
Theorem load_reads_what_save_wrote (self : RepoDataFetcher) (df : DataFrame)
    (filename : option string) (fs fs' : FS) (saved : string) :
  rows df <> [] ->
  (forall name table fs1 fs2,
     write_table name table fs1 = Ok fs2 -> read_table name fs2 = Ok table) ->
  save_commit_data FS makedirs write_table now_stamp format_datetimes
    self df filename fs = Ok (saved, fs') ->
  load_commit_data FS read_table to_numeric to_datetime saved fs'
  = Csv.read_csv to_numeric to_datetime (Csv.to_csv format_datetimes df).
Proof.
  intros _ Hrw. unfold save_commit_data, load_commit_data.
  destruct (match filename with
            | Some name => Ok name
            | None => _
            end) as [name|e]; [|done].
  cbn [mbind outcome_bind].
  destruct (makedirs (dirname name) fs) as [fs1|e]; [|done].
  cbn [mbind outcome_bind].
  destruct (write_table name _ fs1) as [fs2|e] eqn:Hw; [|done].
  cbn [mbind outcome_bind]. intros [= <- <-].
  by rewrite (Hrw _ _ _ _ Hw).
Qed.

(** X24: [clone_repo] changes the path of the fetcher and nothing else:
    a repository the fetcher has already opened stays cached, so that
    [open_repo] afterwards returns that repository, not the one at the new
    path. *)
Theorem clone_keeps_cached_repo (git_Repo : string -> outcome Git.Repo)
    (self self' : RepoDataFetcher) (repo_url : string)
    (target_dir : option string) (fs fs' : FS) (path : string)
    (cached : Git.Repo) :
  repo self = Some cached ->
  clone_repo FS isdir path_exists makedirs clone_from self repo_url
    target_dir fs = Ok (path, self', fs') ->
  path <> EmptyString ->
  repo_path self' = Some path
  /\ open_repo git_Repo self' = Ok (cached, self').
Proof.
  intros Hcached Hclone Hpath. unfold clone_repo in Hclone.
  destruct (makedirs _ fs) as [fs1|e]; [|done].
  cbn [mbind outcome_bind] in Hclone.
  destruct (if negb _ then _ else _) as [fs2|e]; [|done].
  cbn [mbind outcome_bind] in Hclone. injection Hclone as <- <- <-.
  split; [done |]. unfold open_repo. cbn [repo_path repo].
  rewrite Hcached. by destruct (resolve_target _ _ _ _ _).
Qed.

(** X25: [clone_repo] does not fetch again what is there: when the
    target directory holds a [.git] after [os.makedirs], nothing is cloned
    (the result is the same whatever cloning would do), and the target
    directory is returned and becomes the path of the fetcher. *)
Theorem clone_reuses_existing_copy (self : RepoDataFetcher)
    (repo_url : string) (target_dir : option string) (fs fs1 : FS) :
  let target := resolve_target FS isdir fs repo_url target_dir in
  makedirs target fs = Ok fs1 ->
  path_exists fs1 (join target ".git") = true ->
  clone_repo FS isdir path_exists makedirs clone_from self repo_url
    target_dir fs
  = Ok (target, {| repo_path := Some target; repo := repo self |}, fs1).
Proof.
  intros target Hmk Hgit. unfold clone_repo. fold target.
  rewrite Hmk. cbn [mbind outcome_bind]. by rewrite Hgit.
Qed.


End FileSystem.

Lemma save_bare_filename_fails_witness :
  save_commit_data table_fs table_makedirs table_write "20230101_100000"
    CsvExamples.sample_format_datetimes fetcher_ab
    CsvExamples.two_commits_df (Some "commits.csv") ∅
  = Raise no_such_file.
Proof.
  apply save_bare_filename_fails; reflexivity.
Defined.

Lemma save_default_filename_witness :
  save_commit_data table_fs table_makedirs table_write "20230101_100000"
    CsvExamples.sample_format_datetimes fetcher_ab
    CsvExamples.two_commits_df None ∅
  = Ok ("data/axios_commits_20230101_100000.csv",
        {[ "data/axios_commits_20230101_100000.csv"
           := Csv.to_csv CsvExamples.sample_format_datetimes
                CsvExamples.two_commits_df ]}).
Proof.
  destruct (save_default_filename table_fs table_makedirs table_write
              "20230101_100000" CsvExamples.sample_format_datetimes
              fetcher_ab CsvExamples.two_commits_df ∅ eq_refl) as [H _].
  destruct (H "data/axios" eq_refl) as (_ & _ & ->).
  reflexivity.
Defined.

Lemma load_reads_what_save_wrote_witness :
  load_commit_data table_fs table_read CsvExamples.sample_to_numeric
    CsvExamples.sample_to_datetime "data/commits.csv"
    {[ "data/commits.csv"
       := Csv.to_csv CsvExamples.sample_format_datetimes
            CsvExamples.two_commits_df ]}
  = Csv.read_csv CsvExamples.sample_to_numeric CsvExamples.sample_to_datetime
      (Csv.to_csv CsvExamples.sample_format_datetimes
         CsvExamples.two_commits_df).
Proof.
  apply (load_reads_what_save_wrote table_fs table_makedirs table_write
           table_read "20230101_100000" CsvExamples.sample_format_datetimes
           CsvExamples.sample_to_numeric CsvExamples.sample_to_datetime
           fetcher_ab CsvExamples.two_commits_df (Some "data/commits.csv") ∅).
  - discriminate.
  - unfold table_write, table_read. intros name table fs1 fs2 [= <-].
    unfold table_fs in *. by rewrite lookup_insert_eq.
  - reflexivity.
Defined.

Lemma clone_keeps_cached_repo_witness :
  open_repo no_repo
    {| repo_path := Some "data/hello-world"; repo := repo fetcher_ab |}
  = Ok ({| Git.iter_commits := [commit_a; commit_b] |},
        {| repo_path := Some "data/hello-world"; repo := repo fetcher_ab |}).
Proof.
  apply (clone_keeps_cached_repo table_fs (fun _ _ => false) already_cloned
           table_makedirs no_clone no_repo fetcher_ab _
           "https://github.com/hello-world/hello-world.git" None ∅ ∅
           "data/hello-world").
  - reflexivity.
  - reflexivity.
  - discriminate.
Defined.

Lemma clone_reuses_existing_copy_witness :
  clone_repo table_fs (fun _ _ => false) already_cloned table_makedirs
    no_clone fetcher_ab "https://github.com/hello-world/hello-world.git"
    None ∅
  = Ok ("data/hello-world",
        {| repo_path := Some "data/hello-world"; repo := repo fetcher_ab |},
        ∅).
Proof.
  apply (clone_reuses_existing_copy table_fs (fun _ _ => false)
           already_cloned table_makedirs no_clone fetcher_ab
           "https://github.com/hello-world/hello-world.git" None ∅ ∅);
    reflexivity.
Defined.


(** Every [.git] is removed from the name, not only the one at the end. *)
Example repo_name_inner_dot_git :
  repo_name "https://github.com/user/my.github.io" = "myhub.io".
Proof. reflexivity. Qed.

End DiskFacts.
